(** * The Black-Litterman allocator of [model.py]

    A shallow embedding of the class [BlackLitterman] and of the part of
    numpy and pandas it calls.

    - Python floats are idealised as the elements of an ordered field [F]:
      the algebraic statements below are statements of exact arithmetic.
    - A numpy array of two dimensions carries its shape at run time, and an
      operation whose shapes do not fit raises; [ndarray] packs a matrix with
      its two dimensions and every operation checks the shapes it is given.
    - A method that may raise returns a [result]; [allocate], which assigns
      the instance fields one after the other, threads the instance and keeps
      what was assigned before an exception. *)

From HB Require Import structures.
From Stdlib Require Import String Ascii DecimalString.
From Stdlib Require DecimalNat.
From mathcomp Require Import ssreflect ssrfun ssrbool eqtype ssrnat seq choice.
From mathcomp Require Import fintype finfun bigop div order ssralg ssrnum.
From mathcomp Require Import matrix rat ssrint.

Set Implicit Arguments.
Unset Strict Implicit.
Unset Printing Implicit Defensive.

Import GRing.Theory Num.Theory Order.Theory.
Local Open Scope ring_scope.

(** ** Python values shared by every stage *)

HB.instance Definition _ := hasDecEq.Build string String.eqb_spec.

(** The exception classes the allocator can meet, each with its message.
    [Unmodelled] is no exception of Python: it marks an outcome the model
    does not give.  These are a row or a column that [.loc] adds to a
    table of several rows (pandas fills the other cells with NaN, which is
    no element of the field), the inverse of a singular matrix with no
    zero row and no zero column (rounding decides whether numpy finds a
    zero pivot), and a field that holds no array where numpy is handed
    it. *)
Inductive exn : Type :=
  | ValueError of string
  | KeyError of string
  | LinAlgError of string
  | Unmodelled of string.

Inductive result (A : Type) : Type :=
  | Ok of A
  | Raise of exn.

Arguments Ok {A} _.
Arguments Raise {A} _.

Definition bind {A B : Type} (r : result A) (k : A -> result B) : result B :=
  match r with
  | Ok x => k x
  | Raise e => Raise e
  end.

Declare Scope py_scope.
Delimit Scope py_scope with py.
Notation "x <- r ;; k" := (bind r (fun x => k))
  (at level 61, r at next level, right associativity) : py_scope.
Local Open Scope py_scope.

Definition is_ok {A : Type} (r : result A) : bool :=
  if r is Ok _ then true else false.


(** ** Arrays *)

Section NdArray.

Variable F : realFieldType.

(** A two-dimensional array: its shape and its entries. *)
Record ndarray : Type := NdArray {
  nrows : nat;
  ncols : nat;
  vals : 'M[F]_(nrows, ncols)
}.

(** Entry [i, j], by position; [0] outside the array, where no operation
    below ever reads. *)
Definition get (a : ndarray) (i j : nat) : F :=
  match insub i, insub j with
  | Some i', Some j' => vals a i' j'
  | _, _ => 0
  end.

(** The array of shape [(m, n)] whose entry [i, j] is [f i j]. *)
Definition array_of (m n : nat) (f : nat -> nat -> F) : ndarray :=
  NdArray (\matrix_(i < m, j < n) f i j).

(** [np.zeros((m, n))] *)
Definition np_zeros (m n : nat) : ndarray := NdArray (0 : 'M[F]_(m, n)).

(** [a.T] *)
Definition T (a : ndarray) : ndarray := NdArray (vals a)^T.

(** [c * a] for a Python scalar [c] *)
Definition scale (c : F) (a : ndarray) : ndarray := NdArray (c *: vals a).

(** [c - a] for a Python scalar [c] *)
Definition rsub (c : F) (a : ndarray) : ndarray :=
  NdArray (map_mx (fun x => c - x) (vals a)).

(** [a.dot(b)]: the inner dimensions must agree. *)
Definition dot (a b : ndarray) : result ndarray :=
  if ncols a == nrows b then
    Ok (array_of (nrows a) (ncols b)
          (fun i j => \sum_(k < ncols a) get a i k * get b k j))
  else Raise (ValueError "shapes not aligned").

(** Broadcasting of one dimension: equal, or one of the two is 1. *)
Definition bdim (m1 m2 : nat) : option nat :=
  if m1 == m2 then Some m1
  else if m1 == 1%N then Some m2
  else if m2 == 1%N then Some m1
  else None.

(** Entry [i, j] of [a] stretched along its dimensions of length 1. *)
Definition bget (a : ndarray) (i j : nat) : F :=
  get a (if nrows a == 1%N then 0%N else i) (if ncols a == 1%N then 0%N else j).

(** An element-wise binary operator between two arrays. *)
Definition broadcast (op : F -> F -> F) (a b : ndarray) : result ndarray :=
  match bdim (nrows a) (nrows b), bdim (ncols a) (ncols b) with
  | Some m, Some n =>
      Ok (array_of m n (fun i j => op (bget a i j) (bget b i j)))
  | _, _ => Raise (ValueError "operands could not be broadcast together")
  end.

Definition add : ndarray -> ndarray -> result ndarray := broadcast +%R.
Definition sub : ndarray -> ndarray -> result ndarray :=
  broadcast (fun x y => x - y).
Definition mul : ndarray -> ndarray -> result ndarray := broadcast *%R.
Definition div : ndarray -> ndarray -> result ndarray :=
  broadcast (fun x y => x / y).

(** [a /= b]: the result is stored in [a], so [b] is stretched to the shape
    of [a] and never the other way round. *)
Definition idiv (a b : ndarray) : result ndarray :=
  if ((nrows b == 1%N) || (nrows b == nrows a))
     && ((ncols b == 1%N) || (ncols b == ncols a)) then
    Ok (array_of (nrows a) (ncols a) (fun i j => get a i j / bget b i j))
  else Raise (ValueError "non-broadcastable output operand").

(** A square matrix with a row or a column of zeros: the elimination
    meets a pivot that is exactly zero, in floating point as well. *)
Definition zero_line (n : nat) (A : 'M[F]_n) : bool :=
  [exists i, row i A == 0] || [exists j, col j A == 0].

(** [numpy.linalg.inv] of a square array: the inverse of a matrix that has
    one; [LinAlgError] when the elimination meets a zero pivot.  For a
    singular matrix with no zero row and no zero column whether it does
    depends on the rounding, and the model gives no outcome. *)
Definition inv (a : ndarray) : result ndarray :=
  if nrows a == ncols a then
    let A : 'M[F]_(nrows a) := \matrix_(i, j) get a i j in
    if A \in unitmx then Ok (NdArray (invmx A))
    else if zero_line A then Raise (LinAlgError "Singular matrix")
    else Raise (Unmodelled "singular matrix, the pivots are up to rounding")
  else Raise (LinAlgError "Last 2 dimensions of the array must be square").

(** [np.reshape(a, (p, q))] of an array, in row-major order. *)
Definition reshape (a : ndarray) (p q : nat) : result ndarray :=
  if (nrows a * ncols a == p * q)%N then
    Ok (array_of p q
          (fun i j => get a ((i * q + j) %/ ncols a) ((i * q + j) %% ncols a)))
  else Raise (ValueError "cannot reshape array").

(** [a.reshape(1, -1)]: the second dimension is whatever is left. *)
Definition reshape_row (a : ndarray) : result ndarray :=
  reshape a 1 (nrows a * ncols a).

(** [np.reshape(l, (p, q))] of a flat Python list. *)
Definition reshape_list (l : seq F) (p q : nat) : result ndarray :=
  if (size l == p * q)%N then
    Ok (array_of p q (fun i j => nth 0 l (i * q + j)))
  else Raise (ValueError "cannot reshape array").

(** An array of one dimension is a flat sequence; against an array of two
    dimensions it broadcasts as a single row. *)
Definition row_of_1d (l : seq F) : ndarray :=
  array_of 1 (size l) (fun _ j => nth 0 l j).

(** [np.diag] of an array of two dimensions: its diagonal, of one. *)
Definition np_diag_2d (a : ndarray) : seq F :=
  [seq get a i i | i <- iota 0 (minn (nrows a) (ncols a))].

(** [np.diag] of an array of one dimension: the diagonal matrix. *)
Definition np_diag_1d (l : seq F) : ndarray :=
  array_of (size l) (size l) (fun i j => if i == j then nth 0 l i else 0).

(** Python's [sum(a)]: the rows of [a] added up, an array of one dimension. *)
Definition py_sum (a : ndarray) : seq F :=
  [seq \sum_(i < nrows a) get a i j | j <- iota 0 (ncols a)].

End NdArray.

Arguments NdArray {F nrows ncols} _.

(** ** Labelled tables *)

Section Frames.

Variable F : realFieldType.

Local Notation ndarray := (ndarray F).

(** The row labels of a table: the default [RangeIndex], or names. *)
Inductive axis_index : Type :=
  | RangeIndex of nat
  | Labels of seq string.

Record DataFrame : Type := MkFrame {
  index : axis_index;
  columns : seq string;
  values : ndarray
}.

Definition shape_error : exn :=
  ValueError "Shape of passed values does not match the indices".

(** [pd.DataFrame(data, columns=names)] *)
Definition new_frame (data : ndarray) (names : seq string) : result DataFrame :=
  if size names == ncols data then
    Ok (MkFrame (RangeIndex (nrows data)) names data)
  else Raise shape_error.

(** [pd.DataFrame(data, columns=names, index=rows)] *)
Definition new_frame_indexed (data : ndarray) (names rows : seq string) :
  result DataFrame :=
  if (size names == ncols data) && (size rows == nrows data) then
    Ok (MkFrame (Labels rows) names data)
  else Raise shape_error.

(** A pick specification: a Python dict from asset names to coefficients,
    in insertion order. *)
Definition pick_dict : Type := seq (string * F).

Definition keys (d : pick_dict) : seq string := [seq p.1 | p <- d].

(** One entry of an array replaced. *)
Definition set_at (a : ndarray) (r c : nat) (v : F) : ndarray :=
  array_of (nrows a) (ncols a)
    (fun i j => if (i == r) && (j == c) then v else get a i j).

Definition has_row (ix : axis_index) (r : nat) : bool :=
  if ix is RangeIndex n then (r < n)%N else false.

(** The keys of [d] that are no column label, in the order of [d]. *)
Definition new_labels (columns : seq string) (d : pick_dict) : seq string :=
  filter (fun a => a \notin columns) (keys d).

(** An array with [m] more columns. *)
Definition widen (a : ndarray) (m : nat) : ndarray :=
  array_of (nrows a) (ncols a + m) (fun i j => get a i j).

(** [df.loc[row, list(d.keys())] = list(d.values())] for an integer row
    label.  pandas has no lookup error here: the labels that are no column
    are first added as new columns, after the others and in the order of
    the keys; the values then go to the positions of the labels, in order.
    The cells of a new column in the other rows are NaN, so that the model
    gives the table for a table of one row only.  A row label that is
    missing would add a row.  The column labels of the table and the keys
    of the dict are taken to be distinct, as asset names and the keys of a
    Python dict are: a label stands for the one position [seq.index]
    finds. *)
Definition loc_setitem (df : DataFrame) (row : nat) (d : pick_dict) :
  result DataFrame :=
  let added := new_labels (columns df) d in
  if ~~ has_row (index df) row then
    Raise (Unmodelled "setting with enlargement")
  else if (added != [::]) && (nrows (values df) != 1%N) then
    Raise (Unmodelled "NaN in the other rows of a new column")
  else
    let columns' := columns df ++ added in
    Ok (MkFrame (index df) columns'
          (foldl (fun a p => set_at a row (seq.index p.1 columns') p.2)
                 (widen (values df) (size added)) d)).

End Frames.

Arguments RangeIndex _ : clear implicits.

(** ** The allocator *)

Section BlackLitterman.

Variable F : realFieldType.

Local Notation ndarray := (ndarray F).
Local Notation DataFrame := (DataFrame F).
Local Notation pick_dict := (pick_dict F).

(** What an instance field can hold. *)
Inductive pyobj : Type :=
  | PyNone
  | PyArray of ndarray
  | PyFrame of DataFrame.

Record BlackLitterman : Type := MkBL {
  weights : pyobj;
  implied_equilibrium_returns : pyobj;
  posterior_expected_returns : pyobj;
  posterior_covariance : pyobj
}.

(** [__init__] *)
Definition init : BlackLitterman := MkBL PyNone PyNone PyNone PyNone.

(** The array in a field, where numpy is handed the field. *)
Definition field_array (o : pyobj) : result ndarray :=
  match o with
  | PyArray a => Ok a
  | PyNone => Raise (Unmodelled "None where an array is expected")
  | PyFrame _ => Raise (Unmodelled "DataFrame where an array is expected")
  end.

(** The covariance argument: a table or a bare array. *)
Inductive covariance_arg : Type :=
  | CovFrame of DataFrame
  | CovArray of ndarray.

Definition msg_pick_list : string :=
  "The number of views does not match the number of elements in the pick list.".
Definition msg_omega_method : string :=
  "Unknown omega method specified. Supported strings are - prior_variance, user_confidences".
Definition msg_confidences_required : string :=
  "View confidences are required for calculating the Idzorek omega matrix.".
Definition msg_confidences_count : string :=
  "The number of views does not match the number of view confidences specified.".
Definition msg_confidence_negative : string :=
  "View confidence cannot be negative. Please specify a confidence value > 0.".

Definition prior_variance : string := "prior_variance".
Definition user_confidences : string := "user_confidences".

Definition _error_checks (investor_views : seq F) (pick_list : seq pick_dict)
    (omega_method : string) (view_confidences : option (seq F)) : result unit :=
  if size investor_views != size pick_list then
    Raise (ValueError msg_pick_list)
  else if omega_method \notin [:: prior_variance; user_confidences] then
    Raise (ValueError msg_omega_method)
  else if omega_method == user_confidences then
    match view_confidences with
    | None => Raise (ValueError msg_confidences_required)
    | Some confidences =>
        if size investor_views != size confidences then
          Raise (ValueError msg_confidences_count)
        else if has (fun confidence => confidence < 0) confidences then
          Raise (ValueError msg_confidence_negative)
        else Ok tt
    end
  else Ok tt.

Definition _pre_process_inputs (covariance : covariance_arg)
    (market_capitalised_weights investor_views : seq F) :
  result (ndarray * ndarray * ndarray) :=
  views <- reshape_list investor_views (size investor_views) 1;;
  mkt <- reshape_list market_capitalised_weights
           (size market_capitalised_weights) 1;;
  Ok (match covariance with
      | CovFrame df => values df
      | CovArray a => a
      end, mkt, views).

Definition _calculate_max_sharpe_weights (self : BlackLitterman) :
  result ndarray :=
  cov <- field_array (posterior_covariance self);;
  icov <- inv cov;;
  ret <- field_array (posterior_expected_returns self);;
  w <- dot icov (T ret);;
  idiv w (row_of_1d (py_sum w)).

Definition _calculate_posterior_expected_returns (self : BlackLitterman)
    (covariance : ndarray) (tau : F) (pick_matrix omega investor_views : ndarray) :
  result ndarray :=
  let pi := implied_equilibrium_returns self in
  a <- dot (scale tau covariance) (T pick_matrix);;
  b <- dot pick_matrix (scale tau covariance);;
  c <- dot b (T pick_matrix);;
  d <- add c omega;;
  e <- inv d;;
  pi' <- field_array pi;;
  f <- dot pick_matrix pi';;
  g <- sub investor_views f;;
  h <- dot e g;;
  r <- dot a h;;
  s <- add pi' r;;
  reshape_row s.

Definition _calculate_posterior_covariance (covariance : ndarray) (tau : F)
    (pick_matrix omega : ndarray) : result ndarray :=
  s <- add covariance (scale tau covariance);;
  a <- dot (scale tau covariance) (T pick_matrix);;
  b <- dot pick_matrix (scale tau covariance);;
  c <- dot b (T pick_matrix);;
  d <- add c omega;;
  e <- inv d;;
  f <- dot a e;;
  g <- dot f pick_matrix;;
  h <- dot g (scale tau covariance);;
  sub s h.

Definition _calculate_implied_equilibrium_returns (risk_aversion : F)
    (covariance market_capitalised_weights : ndarray) : result ndarray :=
  x <- dot covariance market_capitalised_weights;;
  Ok (scale risk_aversion x).

(** The loop over [enumerate(pick_list)], from [view_index] on. *)
Fixpoint fill_pick_matrix (df : DataFrame) (view_index : nat)
    (pick_list : seq pick_dict) : result DataFrame :=
  match pick_list with
  | [::] => Ok df
  | d :: rest =>
      df' <- loc_setitem df view_index d;;
      fill_pick_matrix df' view_index.+1 rest
  end.

Definition _create_pick_matrix (num_views num_assets : nat)
    (pick_list : seq pick_dict) (asset_names : seq string) : result ndarray :=
  df <- new_frame (np_zeros F num_views num_assets) asset_names;;
  df' <- fill_pick_matrix df 0 pick_list;;
  Ok (values df').

Definition _calculate_idzorek_omega (covariance : ndarray)
    (view_confidences : option (seq F)) (pick_matrix : ndarray) :
  result ndarray :=
  match view_confidences with
  | None =>
      if nrows covariance == 1%N then
        Raise (Unmodelled "arithmetic on None")
      else Raise (ValueError "cannot reshape array")
  | Some confidences =>
      vc <- reshape_list confidences 1 (nrows covariance);;
      alpha <- div (rsub 1 vc) vc;;
      x <- dot pick_matrix covariance;;
      y <- dot x (T pick_matrix);;
      mul alpha y
  end.

Definition _calculate_omega (covariance : ndarray) (tau : F)
    (pick_matrix : ndarray) (view_confidences : option (seq F))
    (omega_method : string) : result ndarray :=
  omega <- (if omega_method == prior_variance then
              x <- dot (scale tau covariance) (T pick_matrix);;
              dot pick_matrix x
            else _calculate_idzorek_omega covariance view_confidences
                   pick_matrix);;
  Ok (np_diag_1d (np_diag_2d omega)).

(** *** Methods that assign the fields of the instance

    A method runs on the instance and returns it as it is afterwards,
    together with its outcome: what was assigned before an exception
    stays assigned. *)

Definition method (A : Type) : Type :=
  BlackLitterman -> BlackLitterman * result A.

Definition mbind {A B : Type} (m : method A) (k : A -> method B) : method B :=
  fun self =>
    match m self with
    | (self', Ok x) => k x self'
    | (self', Raise e) => (self', Raise e)
    end.

(** A computation that does not touch the instance. *)
Definition pure {A : Type} (r : result A) : method A := fun self => (self, r).

(** A computation that reads the instance. *)
Definition call {A : Type} (f : BlackLitterman -> result A) : method A :=
  fun self => (self, f self).

Definition assign (f : BlackLitterman -> BlackLitterman) : method unit :=
  fun self => (f self, Ok tt).

Notation "x <~ m ;; k" := (mbind m (fun x => k))
  (at level 61, m at next level, right associativity) : py_scope.

Definition set_weights (v : pyobj) (self : BlackLitterman) : BlackLitterman :=
  MkBL v (implied_equilibrium_returns self) (posterior_expected_returns self)
    (posterior_covariance self).

Definition set_implied_equilibrium_returns (v : pyobj) (self : BlackLitterman) :
  BlackLitterman :=
  MkBL (weights self) v (posterior_expected_returns self)
    (posterior_covariance self).

Definition set_posterior_expected_returns (v : pyobj) (self : BlackLitterman) :
  BlackLitterman :=
  MkBL (weights self) (implied_equilibrium_returns self) v
    (posterior_covariance self).

Definition set_posterior_covariance (v : pyobj) (self : BlackLitterman) :
  BlackLitterman :=
  MkBL (weights self) (implied_equilibrium_returns self)
    (posterior_expected_returns self) v.

Definition _post_processing (asset_names : seq string) : method unit :=
  w <~ call (fun self => field_array (weights self));;
  _ <~ assign (set_weights (PyArray (T w)));;
  w' <~ call (fun self => field_array (weights self));;
  df <~ pure (new_frame w' asset_names);;
  _ <~ assign (set_weights (PyFrame df));;
  pi <~ call (fun self => field_array (implied_equilibrium_returns self));;
  df <~ pure (new_frame (T pi) asset_names);;
  _ <~ assign (set_implied_equilibrium_returns (PyFrame df));;
  ret <~ call (fun self => field_array (posterior_expected_returns self));;
  df <~ pure (new_frame ret asset_names);;
  _ <~ assign (set_posterior_expected_returns (PyFrame df));;
  cov <~ call (fun self => field_array (posterior_covariance self));;
  df <~ pure (new_frame_indexed cov asset_names asset_names);;
  assign (set_posterior_covariance (PyFrame df)).

(** [str(n)] *)
Definition str (n : nat) : string := NilZero.string_of_uint (Nat.to_uint n).

(** The default of [asset_names]: the column labels of a covariance table,
    or the positions as strings. *)
Definition default_asset_names (covariance : covariance_arg)
    (num_assets : nat) : seq string :=
  match covariance with
  | CovFrame df => columns df
  | CovArray _ => [seq str i | i <- iota 0 num_assets]
  end.

Definition allocate (covariance : covariance_arg)
    (market_capitalised_weights investor_views : seq F)
    (pick_list : seq pick_dict) (omega : option ndarray)
    (risk_aversion tau : F) (omega_method : string)
    (view_confidences : option (seq F)) (asset_names : option (seq string)) :
  method unit :=
  _ <~ pure (_error_checks investor_views pick_list omega_method
               view_confidences);;
  let num_assets := size market_capitalised_weights in
  let num_views := size investor_views in
  let asset_names :=
    if asset_names is Some names then names
    else default_asset_names covariance num_assets in
  inputs <~ pure (_pre_process_inputs covariance market_capitalised_weights
                    investor_views);;
  let: (covariance, market_capitalised_weights, investor_views) := inputs in
  pi <~ pure (_calculate_implied_equilibrium_returns risk_aversion covariance
                market_capitalised_weights);;
  _ <~ assign (set_implied_equilibrium_returns (PyArray pi));;
  pick_matrix <~ pure (_create_pick_matrix num_views num_assets pick_list
                         asset_names);;
  omega <~ pure (if omega is Some given then Ok given
                 else _calculate_omega covariance tau pick_matrix
                        view_confidences omega_method);;
  omega <~ pure (reshape omega num_views num_views);;
  ret <~ call (fun self =>
                 _calculate_posterior_expected_returns self covariance tau
                   pick_matrix omega investor_views);;
  _ <~ assign (set_posterior_expected_returns (PyArray ret));;
  cov <~ pure (_calculate_posterior_covariance covariance tau pick_matrix
                 omega);;
  _ <~ assign (set_posterior_covariance (PyArray cov));;
  w <~ call _calculate_max_sharpe_weights;;
  _ <~ assign (set_weights (PyArray w));;
  _post_processing asset_names.

End BlackLitterman.

Arguments PyNone {F}.
Arguments init {F}.

(** ** The vocabulary of the statements *)

Section Formulas.

Variable F : realFieldType.
Variables N K : nat.

(** The formulas of the Black-Litterman model, on matrices of fixed
    dimensions: [N] assets and [K] views. *)
Definition posterior_returns_formula (pi : 'cV[F]_N) (Sigma : 'M[F]_N)
    (tau : F) (P : 'M[F]_(K, N)) (Omega : 'M[F]_K) (Q : 'cV[F]_K) : 'cV[F]_N :=
  pi + (tau *: Sigma) *m P^T
       *m invmx (P *m (tau *: Sigma) *m P^T + Omega) *m (Q - P *m pi).

Definition posterior_covariance_formula (Sigma : 'M[F]_N) (tau : F)
    (P : 'M[F]_(K, N)) (Omega : 'M[F]_K) : 'M[F]_N :=
  Sigma + tau *: Sigma
  - (tau *: Sigma) *m P^T
    *m invmx (P *m (tau *: Sigma) *m P^T + Omega) *m P *m (tau *: Sigma).

(** A square matrix with everything off its diagonal set to zero. *)
Definition diagonal_of (M : 'M[F]_K) : 'M[F]_K :=
  \matrix_(i, j) if i == j then M i j else 0.

(** The omega matrix of the user-confidence mode: on the diagonal, the
    variance of view [k] under [Sigma] times [(1 - c_k) / c_k]. *)
Definition idzorek_formula (confidences : seq F) (Sigma : 'M[F]_N)
    (P : 'M[F]_(K, N)) : 'M[F]_K :=
  \matrix_(i, j)
    if i == j then
      (1 - nth 0 confidences i) / nth 0 confidences i * (P *m Sigma *m P^T) i i
    else 0.

(** The maximum-Sharpe weights before normalisation, the sum of the entries
    of a column, and the column divided by that sum. *)
Definition raw_weights (Sigma_post : 'M[F]_N) (pi_post : 'rV[F]_N) : 'cV[F]_N :=
  invmx Sigma_post *m pi_post^T.

Definition entries_sum (v : 'cV[F]_N) : F := \sum_i v i 0.

Definition normalised (v : 'cV[F]_N) : 'cV[F]_N :=
  \col_i (v i 0 / entries_sum v).

Definition positive_semidefinite (Sigma : 'M[F]_N) : Prop :=
  forall x : 'rV[F]_N, 0 <= (x *m Sigma *m x^T) 0 0.

End Formulas.

Section Configuration.

Variable F : realFieldType.

Local Notation pick_dict := (pick_dict F).

(** The two selectors [_error_checks] recognises. *)
Definition recognised_methods : seq string :=
  [:: prior_variance; user_confidences].

(** The two mode names as the specification spells them. *)
Definition documented_methods : seq string :=
  [:: "prior-variance"%string; "user-confidence"%string].

(** The messages of the five checks of [_error_checks]. *)
Definition configuration_messages : seq string :=
  [:: msg_pick_list; msg_omega_method; msg_confidences_required;
      msg_confidences_count; msg_confidence_negative].

Definition is_configuration_error (e : exn) : bool :=
  if e is ValueError s then s \in configuration_messages else false.

Definition raises_configuration_error (A : Type) (r : result A) : bool :=
  if r is Raise e then is_configuration_error e else false.

(** What is wrong with the confidences, when the mode asks for them. *)
Definition confidences_invalid (investor_views : seq F)
    (view_confidences : option (seq F)) : bool :=
  match view_confidences with
  | None => true
  | Some confidences =>
      (size investor_views != size confidences)
      || has (fun confidence => confidence < 0) confidences
  end.

(** The conditions under which the call is a configuration error. *)
Definition misconfigured (investor_views : seq F) (pick_list : seq pick_dict)
    (omega_method : string) (view_confidences : option (seq F)) : bool :=
  [|| size investor_views != size pick_list,
      omega_method \notin recognised_methods
    | (omega_method == user_confidences)
      && confidences_invalid investor_views view_confidences].

End Configuration.

Section Outcomes.

Variable F : realFieldType.

(** A method that never raises a configuration error, whatever the
    instance it runs on. *)
Definition quiet (A : Type) (m : method F A) : Prop :=
  forall self, ~~ raises_configuration_error (m self).2.

(** The array of the covariance argument, and the asset names a call
    ends up with. *)
Definition covariance_values (covariance : covariance_arg F) : ndarray F :=
  match covariance with
  | CovFrame df => values df
  | CovArray a => a
  end.

Definition names_used (covariance : covariance_arg F)
    (asset_names : option (seq string)) (num_assets : nat) : seq string :=
  if asset_names is Some names then names
  else default_asset_names covariance num_assets.

(** The column of the entries of a Python list. *)
Definition column (l : seq F) : 'cV[F]_(size l) := \col_i nth 0 l i.

(** The implied equilibrium returns: risk aversion times covariance times
    market weights. *)
Definition equilibrium_formula (risk_aversion : F) (w : seq F)
    (Sigma : 'M[F]_(size w)) : 'cV[F]_(size w) :=
  risk_aversion *: (Sigma *m column w).

(** Two arrays with the same entries, one possibly the transpose of the
    other: a vector laid out as a column or as a row. *)
Definition same_vector (a b : ndarray F) : Prop := a = b \/ a = T b.

(** The values a field holds, array or table. *)
Definition field_values (o : pyobj F) : option (ndarray F) :=
  match o with
  | PyNone => None
  | PyArray a => Some a
  | PyFrame df => Some (values df)
  end.

End Outcomes.

Section PickSpecifications.

Variable F : realFieldType.

(** Every asset named by a pick specification is in the universe. *)
Definition known_assets (names : seq string) (d : pick_dict F) : bool :=
  all (fun a => a \in names) (keys d).

(** What a cell of the row of a view holds once the pairs of the pick
    specification have been written, in their order, over [old]. *)
Definition cell (names : seq string) (d : pick_dict F) (j : nat) (old : F) : F :=
  foldl (fun x p => if seq.index p.1 names == j then p.2 else x) old d.

End PickSpecifications.

(** ** More vocabulary: whole calls and their tables *)

Section Tables.

Variable F : realFieldType.

(** A symmetric matrix. *)
Definition symmetric n (A : 'M[F]_n) : Prop := A^T = A.

(** The matrix inverted by the two posterior methods. *)
Definition view_covariance N K (Sigma : 'M[F]_N) (tau : F) (P : 'M[F]_(K, N))
    (Omega : 'M[F]_K) : 'M[F]_K :=
  P *m (tau *: Sigma) *m P^T + Omega.

(** The pick matrix, cell by cell. *)
Definition pick_matrix_of (K N : nat) (names : seq string)
    (picks : seq (pick_dict F)) : 'M[F]_(K, N) :=
  \matrix_(k, c) cell names (nth [::] picks k) c 0.

(** A table with the default row labels. *)
Definition table (names : seq string) (a : ndarray F) : DataFrame F :=
  MkFrame (RangeIndex (nrows a)) names a.

(** A table labelled by the asset names on both axes. *)
Definition square_table (names : seq string) (a : ndarray F) : DataFrame F :=
  MkFrame (Labels names) names a.

(** The instance at the end of a call: the four results as tables, the
    weights [w] and the implied returns [pi] laid out as rows. *)
Definition labelled_results N (names : seq string) (w pi : 'cV[F]_N)
    (r : 'rV[F]_N) (S : 'M[F]_N) : BlackLitterman F :=
  MkBL (PyFrame (table names (NdArray w^T)))
    (PyFrame (table names (NdArray pi^T)))
    (PyFrame (table names (NdArray r)))
    (PyFrame (square_table names (NdArray S))).

End Tables.

(** * Properties *)

Section ArrayTheory.

Variable F : realFieldType.

Local Notation ndarray := (ndarray F).

(** ** What the operations do on arrays of a known shape *)

Lemma getE m n (A : 'M[F]_(m, n)) (i : 'I_m) (j : 'I_n) :
  get (NdArray A) i j = A i j.
Proof. by rewrite /get /= !valK. Qed.

Lemma get_array_of m n (f : nat -> nat -> F) (i j : nat) :
  (i < m)%N -> (j < n)%N -> get (array_of m n f) i j = f i j.
Proof. by move=> hi hj; rewrite /get /= !insubT mxE. Qed.

Lemma ndarray_ext (a : ndarray) m n (A : 'M[F]_(m, n)) :
  nrows a = m -> ncols a = n ->
  (forall (i : 'I_m) (j : 'I_n), get a i j = A i j) ->
  a = NdArray A.
Proof.
case: a => m' n' A' /= em en; case: _ / em A; case: _ / en => A h.
by congr NdArray; apply/matrixP => i j; rewrite -h getE.
Qed.

Lemma array_ofE m n (f : nat -> nat -> F) (A : 'M[F]_(m, n)) :
  (forall (i : 'I_m) (j : 'I_n), f i j = A i j) -> array_of m n f = NdArray A.
Proof.
by move=> h; congr NdArray; apply/matrixP => i j; rewrite mxE h.
Qed.

Lemma ord1_if m (i : 'I_m) : (if m == 1%N then 0%N else i : nat) = i.
Proof. by case: eqP i => // -> i; rewrite ord1. Qed.

Lemma bgetE m n (A : 'M[F]_(m, n)) (i : 'I_m) (j : 'I_n) :
  bget (NdArray A) i j = A i j.
Proof. by rewrite /bget /= !ord1_if getE. Qed.

Lemma dotE m n p (A : 'M[F]_(m, n)) (B : 'M[F]_(n, p)) :
  dot (NdArray A) (NdArray B) = Ok (NdArray (A *m B)).
Proof.
rewrite /dot /= eqxx; congr Ok; apply: array_ofE => i j.
by rewrite !mxE; apply: eq_bigr => k _; rewrite !getE.
Qed.

Lemma broadcastE op m n (A B : 'M[F]_(m, n)) :
  broadcast op (NdArray A) (NdArray B)
  = Ok (NdArray (\matrix_(i, j) op (A i j) (B i j))).
Proof.
rewrite /broadcast /bdim /= !eqxx; congr Ok; apply: array_ofE => i j.
by rewrite !mxE !bgetE.
Qed.

Lemma addE m n (A B : 'M[F]_(m, n)) :
  add (NdArray A) (NdArray B) = Ok (NdArray (A + B)).
Proof.
rewrite /add broadcastE; congr (Ok (NdArray _)).
by apply/matrixP => i j; rewrite !mxE.
Qed.

Lemma subE m n (A B : 'M[F]_(m, n)) :
  sub (NdArray A) (NdArray B) = Ok (NdArray (A - B)).
Proof.
rewrite /sub broadcastE; congr (Ok (NdArray _)).
by apply/matrixP => i j; rewrite !mxE.
Qed.

Lemma matrix_get m n (A : 'M[F]_(m, n)) :
  \matrix_(i, j) get (NdArray A) i j = A.
Proof. by apply/matrixP => i j; rewrite mxE getE. Qed.

Lemma invE n (A : 'M[F]_n) :
  A \in unitmx -> inv (NdArray A) = Ok (NdArray (invmx A)).
Proof. by move=> uA; rewrite /inv /= eqxx matrix_get uA. Qed.

(** A matrix with a row of zeros has no inverse, and the elimination
    finds it out. *)
Lemma zero_row_singular n (A : 'M[F]_n) (k : 'I_n) :
  row k A = 0 -> A \notin unitmx.
Proof.
move=> row0; apply/negP => unit_A.
have /rowP /(_ k) : row k (A *m invmx A) = 0 by rewrite row_mul row0 mul0mx.
by rewrite mulmxV // !mxE eqxx => /eqP; rewrite oner_eq0.
Qed.

Lemma inv_zero_row n (A : 'M[F]_n) (k : 'I_n) :
  row k A = 0 -> inv (NdArray A) = Raise (LinAlgError "Singular matrix").
Proof.
move=> row0; rewrite /inv /= eqxx matrix_get.
rewrite (negbTE (zero_row_singular row0)) /zero_line.
by have -> : [exists i, row i A == 0] by apply/existsP; exists k; rewrite row0.
Qed.

(** Without an inverse there is no result, whatever the pivots. *)
Lemma inv_no_inverse n (A : 'M[F]_n) :
  A \notin unitmx -> exists e, inv (NdArray A) = Raise e.
Proof.
move=> /negbTE singular; rewrite /inv /= eqxx matrix_get singular.
by case: ifP => _; [exists (LinAlgError "Singular matrix") | eexists].
Qed.

(** A column read in row-major order is the row of the same entries. *)
Lemma reshape_row_col n (v : 'cV[F]_n) :
  reshape_row (NdArray v) = Ok (NdArray v^T).
Proof.
rewrite /reshape_row /reshape /= mul1n eqxx; congr Ok.
apply: ndarray_ext => //=; first exact: muln1.
move=> i j; rewrite get_array_of ?muln1 // ord1 mul0n add0n divn1 modn1.
by rewrite (getE v j ord0) mxE.
Qed.

(** An array reshaped to its own shape is unchanged. *)
Lemma reshape_same m n (A : 'M[F]_(m, n)) :
  reshape (NdArray A) m n = Ok (NdArray A).
Proof.
rewrite /reshape /= eqxx; congr Ok; apply: array_ofE => i j.
have n_gt0 : (0 < n)%N by case: n j {A} => [[]|].
by rewrite divnMDl // modnMDl divn_small // addn0 modn_small // getE.
Qed.

Lemma reshape_list_col (l : seq F) :
  reshape_list l (size l) 1 = Ok (NdArray (column l)).
Proof.
rewrite /reshape_list muln1 eqxx; congr Ok; apply: array_ofE => i j.
by rewrite !mxE ord1 muln1 addn0.
Qed.

Lemma bind_Ok (A B : Type) (x : A) (k : A -> result B) : bind (Ok x) k = k x.
Proof. by []. Qed.

Lemma scaleE m n (c : F) (A : 'M[F]_(m, n)) :
  scale c (NdArray A) = NdArray (c *: A).
Proof. by []. Qed.

Lemma TE m n (A : 'M[F]_(m, n)) : T (NdArray A) = NdArray A^T.
Proof. by []. Qed.

End ArrayTheory.

(** Runs a chain of array operations whose shapes are known to fit. *)
Ltac run_arrays :=
  rewrite ?scaleE ?TE; do ?[rewrite ?(dotE, addE, subE, bind_Ok) ?invE //=].

(** ** The two posterior formulas *)

Section Posterior.

Variable F : realFieldType.
Variables N K : nat.

(** What the two methods return when their one inversion succeeds. *)
Lemma posterior_expected_returnsE (self : BlackLitterman F) (pi : 'cV[F]_N)
    (Sigma : 'M[F]_N) (tau : F) (P : 'M[F]_(K, N)) (Omega : 'M[F]_K)
    (Q : 'cV[F]_K) :
  implied_equilibrium_returns self = PyArray (NdArray pi) ->
  P *m (tau *: Sigma) *m P^T + Omega \in unitmx ->
  _calculate_posterior_expected_returns self (NdArray Sigma) tau (NdArray P)
    (NdArray Omega) (NdArray Q)
  = Ok (NdArray (posterior_returns_formula pi Sigma tau P Omega Q)^T).
Proof.
move=> self_pi invertible.
rewrite /_calculate_posterior_expected_returns self_pi; run_arrays.
by rewrite reshape_row_col /posterior_returns_formula !mulmxA.
Qed.

Lemma posterior_covarianceE (Sigma : 'M[F]_N) (tau : F) (P : 'M[F]_(K, N))
    (Omega : 'M[F]_K) :
  P *m (tau *: Sigma) *m P^T + Omega \in unitmx ->
  _calculate_posterior_covariance (NdArray Sigma) tau (NdArray P)
    (NdArray Omega)
  = Ok (NdArray (posterior_covariance_formula Sigma tau P Omega)).
Proof.
by move=> invertible; rewrite /_calculate_posterior_covariance; run_arrays.
Qed.

(** C1. With the implied equilibrium returns [pi] in the instance, a
    positive [tau] and [P (tau Sigma) P^T + Omega] invertible,
    [_calculate_posterior_expected_returns] returns the vector
    [pi + (tau Sigma) P^T (P (tau Sigma) P^T + Omega)^-1 (Q - P pi)],
    laid out as one row. *)
Theorem posterior_expected_returns_correct (self : BlackLitterman F)
    (pi : 'cV[F]_N) (Sigma : 'M[F]_N) (tau : F) (P : 'M[F]_(K, N))
    (Omega : 'M[F]_K) (Q : 'cV[F]_K) :
  implied_equilibrium_returns self = PyArray (NdArray pi) ->
  0 < tau ->
  P *m (tau *: Sigma) *m P^T + Omega \in unitmx ->
  _calculate_posterior_expected_returns self (NdArray Sigma) tau (NdArray P)
    (NdArray Omega) (NdArray Q)
  = Ok (NdArray (posterior_returns_formula pi Sigma tau P Omega Q)^T).
Proof.
by move=> self_pi _ invertible; exact: posterior_expected_returnsE.
Qed.

(** C2. With [P (tau Sigma) P^T + Omega] invertible and a positive [tau],
    [_calculate_posterior_covariance] returns
    [Sigma + tau Sigma - (tau Sigma) P^T (P (tau Sigma) P^T + Omega)^-1 P (tau Sigma)]. *)
Theorem posterior_covariance_correct (Sigma : 'M[F]_N) (tau : F)
    (P : 'M[F]_(K, N)) (Omega : 'M[F]_K) :
  0 < tau ->
  P *m (tau *: Sigma) *m P^T + Omega \in unitmx ->
  _calculate_posterior_covariance (NdArray Sigma) tau (NdArray P)
    (NdArray Omega)
  = Ok (NdArray (posterior_covariance_formula Sigma tau P Omega)).
Proof.
by move=> _ invertible; exact: posterior_covarianceE.
Qed.

End Posterior.

(** ** The uncertainty of the views *)

Section Omega.

Variable F : realFieldType.
Variables N K : nat.

(** [np.diag(np.diag(a))] of a square array. *)
Lemma np_diag_diag (M : 'M[F]_K) :
  np_diag_1d (np_diag_2d (NdArray M)) = NdArray (diagonal_of M).
Proof.
have sz : size (np_diag_2d (NdArray M)) = K.
  by rewrite /np_diag_2d size_map size_iota /= minnn.
apply: ndarray_ext => //= i j.
rewrite get_array_of ?sz // mxE val_eqE; case: eqP => [->|//].
by rewrite (nth_map 0%N) ?size_iota /= ?minnn // nth_iota ?add0n ?getE.
Qed.

(** The variance of one view: an entry of the diagonal of [P X P^T] is the
    quadratic form of [X] at the row of that view. *)
Lemma view_variance (X : 'M[F]_N) (P : 'M[F]_(K, N)) (k : 'I_K) :
  (P *m X *m P^T) k k = (row k P *m X *m (row k P)^T) 0 0.
Proof.
rewrite !mxE; apply: eq_bigr => j _; rewrite !mxE; congr (_ * _).
by apply: eq_bigr => l _; rewrite !mxE.
Qed.

Lemma prior_variance_omegaE (Sigma : 'M[F]_N) (tau : F) (P : 'M[F]_(K, N))
    (view_confidences : option (seq F)) :
  _calculate_omega (NdArray Sigma) tau (NdArray P) view_confidences
    prior_variance
  = Ok (NdArray (diagonal_of (P *m (tau *: Sigma) *m P^T))).
Proof.
rewrite /_calculate_omega eqxx; run_arrays.
by rewrite np_diag_diag mulmxA.
Qed.

(** C8. In the mode [prior_variance], for a positive semi-definite
    covariance and [tau >= 0], the omega matrix is the diagonal of
    [P (tau Sigma) P^T]: zero off the diagonal, non-negative on it. *)
Theorem prior_variance_omega (Sigma : 'M[F]_N) (tau : F) (P : 'M[F]_(K, N))
    (view_confidences : option (seq F)) :
  positive_semidefinite Sigma -> 0 <= tau ->
  let Omega := diagonal_of (P *m (tau *: Sigma) *m P^T) in
  [/\ _calculate_omega (NdArray Sigma) tau (NdArray P) view_confidences
        prior_variance = Ok (NdArray Omega),
      forall i j : 'I_K, i != j -> Omega i j = 0
    & forall i : 'I_K, 0 <= Omega i i].
Proof.
move=> psd tau_ge0 Omega; split.
- exact: prior_variance_omegaE.
- by move=> i j /negbTE ne_ij; rewrite mxE ne_ij.
- move=> i; rewrite mxE eqxx view_variance -scalemxAr -scalemxAl mxE.
  exact: mulr_ge0 (psd _).
Qed.

End Omega.

(** ** Validation *)

Section Validation.

Variable F : realFieldType.

Local Notation pick_dict := (pick_dict F).

Lemma error_checks_misconfigured (views : seq F) (picks : seq pick_dict)
    (method : string) (confidences : option (seq F)) :
  raises_configuration_error (_error_checks views picks method confidences)
  = misconfigured views picks method confidences.
Proof.
rewrite /_error_checks /misconfigured /recognised_methods.
case: (size views != size picks) => //=.
case: (method \notin _) => //=.
case: (method == user_confidences) => //=.
case: confidences => [confidences|] //=.
case: (size views != size confidences) => //=.
by case: (has _ confidences).
Qed.

Lemma error_checks_ok (views : seq F) (picks : seq pick_dict)
    (method : string) (confidences : option (seq F)) :
  is_ok (_error_checks views picks method confidences)
  = ~~ misconfigured views picks method confidences.
Proof.
rewrite /_error_checks /misconfigured /recognised_methods.
case: (size views != size picks) => //=.
case: (method \notin _) => //=.
case: (method == user_confidences) => //=.
case: confidences => [confidences|] //=.
case: (size views != size confidences) => //=.
by case: (has _ confidences).
Qed.

(** *** No stage after validation raises a configuration error *)

Local Notation quietly r := (~~ raises_configuration_error r).

Lemma quietly_bind (A B : Type) (r : result A) (k : A -> result B) :
  quietly r -> (forall x, quietly (k x)) -> quietly (bind r k).
Proof. by case: r => [x|e] //= _; apply. Qed.

Lemma quietly_dot (a b : ndarray F) : quietly (dot a b).
Proof. by rewrite /dot; case: ifP. Qed.

Lemma quietly_broadcast op (a b : ndarray F) : quietly (broadcast op a b).
Proof. by rewrite /broadcast; case: bdim => [m|] //; case: bdim. Qed.

Lemma quietly_idiv (a b : ndarray F) : quietly (idiv a b).
Proof. by rewrite /idiv; case: ifP. Qed.

Lemma quietly_inv (a : ndarray F) : quietly (inv a).
Proof. by rewrite /inv; do 3![case: ifP => // _]. Qed.

Lemma quietly_reshape (a : ndarray F) p q : quietly (reshape a p q).
Proof. by rewrite /reshape; case: ifP. Qed.

Lemma quietly_reshape_list (l : seq F) p q : quietly (reshape_list l p q).
Proof. by rewrite /reshape_list; case: ifP. Qed.

Lemma quietly_new_frame (a : ndarray F) names : quietly (new_frame a names).
Proof. by rewrite /new_frame; case: ifP. Qed.

Lemma quietly_new_frame_indexed (a : ndarray F) names rows :
  quietly (new_frame_indexed a names rows).
Proof. by rewrite /new_frame_indexed; case: ifP. Qed.

Lemma quietly_loc_setitem (df : DataFrame F) row d :
  quietly (loc_setitem df row d).
Proof. by rewrite /loc_setitem; case: ifP => // _; case: ifP. Qed.

Lemma quietly_field_array (o : pyobj F) : quietly (field_array o).
Proof. by case: o. Qed.

Lemma quietly_fill_pick_matrix (df : DataFrame F) i picks :
  quietly (fill_pick_matrix df i picks).
Proof.
elim: picks df i => [|d picks IH] df i //=.
by apply: quietly_bind => [|df']; [exact: quietly_loc_setitem | exact: IH].
Qed.

Create HintDb quietly.
#[local] Hint Resolve quietly_dot quietly_broadcast quietly_idiv quietly_inv
  quietly_reshape quietly_reshape_list quietly_new_frame
  quietly_new_frame_indexed quietly_loc_setitem quietly_field_array
  quietly_fill_pick_matrix : quietly.

(** Every step of a method body is one of the operations above. *)
Ltac quietly_steps :=
  repeat (apply: quietly_bind => [|?]);
  rewrite /add /sub /mul /div /reshape_row; auto with quietly.

Lemma quietly_pre_process_inputs cov (w views : seq F) :
  quietly (_pre_process_inputs cov w views).
Proof. by rewrite /_pre_process_inputs; quietly_steps. Qed.

Lemma quietly_implied_equilibrium_returns ra (cov w : ndarray F) :
  quietly (_calculate_implied_equilibrium_returns ra cov w).
Proof. by rewrite /_calculate_implied_equilibrium_returns; quietly_steps. Qed.

Lemma quietly_create_pick_matrix K N (picks : seq pick_dict) names :
  quietly (_create_pick_matrix K N picks names).
Proof. by rewrite /_create_pick_matrix; quietly_steps. Qed.

Lemma quietly_idzorek_omega (cov : ndarray F) vc P :
  quietly (_calculate_idzorek_omega cov vc P).
Proof.
rewrite /_calculate_idzorek_omega; case: vc => [vc|]; last by case: ifP.
by quietly_steps.
Qed.

Lemma quietly_omega (cov : ndarray F) tau P vc method :
  quietly (_calculate_omega cov tau P vc method).
Proof.
rewrite /_calculate_omega; apply: quietly_bind => // .
by case: ifP => _; [quietly_steps | exact: quietly_idzorek_omega].
Qed.

Lemma quietly_posterior_expected_returns self (cov : ndarray F) tau P omega Q :
  quietly (_calculate_posterior_expected_returns self cov tau P omega Q).
Proof. by rewrite /_calculate_posterior_expected_returns; quietly_steps. Qed.

Lemma quietly_posterior_covariance (cov : ndarray F) tau P omega :
  quietly (_calculate_posterior_covariance cov tau P omega).
Proof. by rewrite /_calculate_posterior_covariance; quietly_steps. Qed.

Lemma quietly_max_sharpe_weights (self : BlackLitterman F) :
  quietly (_calculate_max_sharpe_weights self).
Proof. by rewrite /_calculate_max_sharpe_weights; quietly_steps. Qed.

Lemma quiet_mbind (A B : Type) (m : method F A) (k : A -> method F B) :
  quiet m -> (forall x, quiet (k x)) -> quiet (mbind m k).
Proof.
move=> qm qk self; rewrite /mbind; case e: (m self) => [self' [x|err]] /=.
  exact: qk.
by move: (qm self); rewrite e.
Qed.

Lemma quiet_pure (A : Type) (r : result A) : quietly r -> quiet (pure (F:=F) r).
Proof. by move=> qr self. Qed.

Lemma quiet_call (A : Type) (f : BlackLitterman F -> result A) :
  (forall self, quietly (f self)) -> quiet (call f).
Proof. by move=> qf self; apply: qf. Qed.

Lemma quiet_assign (f : BlackLitterman F -> BlackLitterman F) : quiet (assign f).
Proof. by []. Qed.

Lemma quiet_post_processing names : quiet (_post_processing (F:=F) names).
Proof.
rewrite /_post_processing.
by repeat (apply: quiet_mbind => [|?]);
   first [exact: quiet_assign | apply: quiet_pure | apply: quiet_call => ?];
   auto with quietly.
Qed.

Section Allocate.

Variables (covariance : covariance_arg F) (market_weights views : seq F).
Variables (pick_list : seq pick_dict) (omega : option (ndarray F)).
Variables (risk_aversion tau : F) (omega_method : string).
Variables (view_confidences : option (seq F)) (asset_names : option (seq string)).

Let run : method F unit :=
  allocate covariance market_weights views pick_list omega risk_aversion tau
    omega_method view_confidences asset_names.

(** A failed validation ends the call with the instance as it was. *)
Lemma allocate_rejected self e :
  _error_checks views pick_list omega_method view_confidences = Raise e ->
  run self = (self, Raise e).
Proof. by rewrite /run /allocate /mbind /pure => ->. Qed.

(** Once validation has passed, whatever is raised is something else. *)
Lemma allocate_accepted self :
  _error_checks views pick_list omega_method view_confidences = Ok tt ->
  quietly (run self).2.
Proof.
rewrite /run /allocate {1}/mbind {1}/pure => ->.
move: self; apply: quiet_mbind => [|[[cov w] Q]].
  exact/quiet_pure/quietly_pre_process_inputs.
apply: quiet_mbind => [|pi].
  exact/quiet_pure/quietly_implied_equilibrium_returns.
apply: quiet_mbind => [|_]; first exact: quiet_assign.
apply: quiet_mbind => [|P]; first exact/quiet_pure/quietly_create_pick_matrix.
apply: quiet_mbind => [|omega'].
  by apply: quiet_pure; case: (omega) => // ; exact: quietly_omega.
apply: quiet_mbind => [|omega'']; first exact/quiet_pure/quietly_reshape.
apply: quiet_mbind => [|ret].
  by apply: quiet_call => self; exact: quietly_posterior_expected_returns.
apply: quiet_mbind => [|_]; first exact: quiet_assign.
apply: quiet_mbind => [|cov'].
  exact/quiet_pure/quietly_posterior_covariance.
apply: quiet_mbind => [|_]; first exact: quiet_assign.
apply: quiet_mbind => [|w'].
  by apply: quiet_call => self; exact: quietly_max_sharpe_weights.
apply: quiet_mbind => [|_]; first exact: quiet_assign.
exact: quiet_post_processing.
Qed.

End Allocate.

End Validation.

(** ** What validation accepts and rejects *)

Section ValidationClaims.

Variable F : realFieldType.

Local Notation pick_dict := (pick_dict F).

Variables (covariance : covariance_arg F) (market_weights views : seq F).
Variables (pick_list : seq pick_dict) (omega : option (ndarray F)).
Variables (risk_aversion tau : F) (omega_method : string).
Variables (view_confidences : option (seq F)) (asset_names : option (seq string)).
Variable self : BlackLitterman F.

Let run : method F unit :=
  allocate covariance market_weights views pick_list omega risk_aversion tau
    omega_method view_confidences asset_names.

(** C4, as the code has it.  The check of the selector fails exactly when
    the selector is neither [prior_variance] nor [user_confidences] (and the
    counts of views and pick specifications agree, which is checked first);
    with any other selector [allocate] ends in a validation error and the
    instance is as it was: nothing has been computed. *)
Theorem omega_method_validation :
  (_error_checks views pick_list omega_method view_confidences
   = Raise (ValueError msg_omega_method)
   <-> size views = size pick_list /\ omega_method \notin recognised_methods)
  /\ (omega_method \notin recognised_methods ->
      run self
      = (self, Raise (ValueError (if size views == size pick_list
                                  then msg_omega_method else msg_pick_list)))).
Proof.
split; last first.
  move=> unknown; apply: allocate_rejected; rewrite /_error_checks.
  by rewrite -/recognised_methods unknown; case: eqP.
rewrite /_error_checks -/recognised_methods; case: eqP => [eq_sz|ne_sz] /=.
  case: (omega_method \notin _) => /=; first by split=> // _; split.
  split; last by case.
  case: (omega_method == _) => //; case: (view_confidences) => [l|] //.
  by case: (size views != size l) => //; case: (has _ l).
by split=> // -[].
Qed.

(** C9. [allocate] raises a configuration error exactly when the call is
    misconfigured: the counts of views and pick specifications differ, the
    selector is not recognised, or the mode is [user_confidences] and the
    confidences are missing, of another count than the views, or one of them
    is negative.  The error is the one [_error_checks] raises, and the
    instance is as it was.  Confidences that are all zero pass validation. *)
Theorem allocate_configuration_errors :
  [/\ raises_configuration_error (run self).2
      = misconfigured views pick_list omega_method view_confidences,
      misconfigured views pick_list omega_method view_confidences ->
      run self
      = (self, _error_checks views pick_list omega_method view_confidences)
    & _error_checks views pick_list user_confidences
        (Some (nseq (size views) 0))
      = if size views == size pick_list then Ok tt
        else Raise (ValueError msg_pick_list)].
Proof.
split.
- rewrite -error_checks_misconfigured.
  case checked: (_error_checks _ _ _ _) => [[]|e].
    exact/negbTE/allocate_accepted.
  by rewrite /run (allocate_rejected _ _ _ _ _ _ _ checked).
- rewrite -error_checks_misconfigured.
  case checked: (_error_checks _ _ _ _) => [[]|e] // _.
  exact: allocate_rejected.
- rewrite /_error_checks size_nseq; case: eqP => //= _.
  by rewrite eqxx has_nseq ltxx andbF.
Qed.

End ValidationClaims.

(** ** The user-confidence mode *)

Section Idzorek.

Variable F : realFieldType.

Lemma bdimnn n : bdim n n = Some n.
Proof. by rewrite /bdim eqxx. Qed.

Lemma bdim1n n : bdim 1 n = Some n.
Proof. by rewrite /bdim; case: eqP => [<-|]. Qed.

Lemma reshape_list_row (l : seq F) n :
  size l = n -> reshape_list l 1 n = Ok (NdArray (\row_(j < n) nth 0 l j)).
Proof.
move=> sz; rewrite /reshape_list mul1n sz eqxx; congr Ok.
by apply: array_ofE => i j; rewrite mxE ord1 mul0n.
Qed.

(** The confidences are laid out along [covariance.shape[0]], the number
    of assets: with another number of views the reshape fails. *)
Lemma idzorek_omega_reshape_fails N K (Sigma : 'M[F]_N) (tau : F)
    (P : 'M[F]_(K, N)) (confidences : seq F) :
  size confidences != N ->
  _calculate_omega (NdArray Sigma) tau (NdArray P) (Some confidences)
    user_confidences
  = Raise (ValueError "cannot reshape array").
Proof.
move=> /negbTE ne_sz.
by rewrite /_calculate_omega /= /reshape_list mul1n ne_sz.
Qed.

(** With as many views as assets the omega matrix is the one of the
    specification. *)
Lemma idzorek_omega_square N (Sigma : 'M[F]_N) (tau : F) (P : 'M[F]_N)
    (confidences : seq F) :
  size confidences = N ->
  _calculate_omega (NdArray Sigma) tau (NdArray P) (Some confidences)
    user_confidences
  = Ok (NdArray (idzorek_formula confidences Sigma P)).
Proof.
move=> sz; rewrite /_calculate_omega /= reshape_list_row //=.
rewrite /div /rsub /= broadcastE /=; run_arrays.
rewrite /mul /broadcast /= bdim1n bdimnn /=.
set alpha := (X in bget (NdArray X)).
rewrite (array_ofE (A := \matrix_(i, j) (alpha 0 j * (P *m Sigma *m P^T) i j))).
  move=> i j; rewrite mxE bgetE /bget /= ord1_if.
  by rewrite (getE alpha ord0 j).
rewrite np_diag_diag; congr (Ok (NdArray _)); apply/matrixP => i j.
by rewrite !mxE; case: eqP => // ->.
Qed.

(** C3. One view on two assets: the user-confidence mode raises, whatever
    the confidence, the covariance and the pick matrix. *)
Theorem idzorek_omega_one_view_two_assets (Sigma : 'M[F]_2) (tau : F)
    (P : 'M[F]_(1, 2)) (confidence : F) :
  _calculate_omega (NdArray Sigma) tau (NdArray P) (Some [:: confidence])
    user_confidences
  = Raise (ValueError "cannot reshape array").
Proof. exact: idzorek_omega_reshape_fails. Qed.

End Idzorek.

(** ** The weights *)

Section Weights.

Variable F : realFieldType.
Variable N : nat.

(** Python's [sum] of a column is the array of one entry holding the sum
    of the entries; dividing the column by it divides every entry. *)
Lemma idiv_py_sum (v : 'cV[F]_N) :
  idiv (NdArray v) (row_of_1d (py_sum (NdArray v))) = Ok (NdArray (normalised v)).
Proof.
rewrite /idiv /=; congr Ok; apply: array_ofE => i j.
rewrite /bget /= get_array_of //= !mxE ord1 getE; congr (_ / _).
by apply: eq_bigr => k _; rewrite (getE v k ord0).
Qed.

Lemma entries_sum_normalised (v : 'cV[F]_N) :
  entries_sum v != 0 -> entries_sum (normalised v) = 1.
Proof.
move=> nz; rewrite /entries_sum.
under eq_bigr do rewrite mxE.
by rewrite -mulr_suml divff.
Qed.

Lemma max_sharpe_weightsE (self : BlackLitterman F) (Sigma_post : 'M[F]_N)
    (pi_post : 'rV[F]_N) :
  posterior_covariance self = PyArray (NdArray Sigma_post) ->
  posterior_expected_returns self = PyArray (NdArray pi_post) ->
  Sigma_post \in unitmx ->
  _calculate_max_sharpe_weights self
  = Ok (NdArray (normalised (raw_weights Sigma_post pi_post))).
Proof.
move=> self_cov self_ret invertible.
rewrite /_calculate_max_sharpe_weights self_cov self_ret /=; run_arrays.
exact: idiv_py_sum.
Qed.

Lemma max_sharpe_weights_zero_row (self : BlackLitterman F)
    (Sigma_post : 'M[F]_N) (k : 'I_N) :
  posterior_covariance self = PyArray (NdArray Sigma_post) ->
  row k Sigma_post = 0 ->
  _calculate_max_sharpe_weights self = Raise (LinAlgError "Singular matrix").
Proof.
move=> self_cov row0.
by rewrite /_calculate_max_sharpe_weights self_cov /= (inv_zero_row row0).
Qed.

Lemma max_sharpe_weights_no_inverse (self : BlackLitterman F)
    (Sigma_post : 'M[F]_N) :
  posterior_covariance self = PyArray (NdArray Sigma_post) ->
  Sigma_post \notin unitmx ->
  exists e, _calculate_max_sharpe_weights self = Raise e.
Proof.
move=> self_cov /inv_no_inverse [e no_inverse].
by exists e; rewrite /_calculate_max_sharpe_weights self_cov /= no_inverse.
Qed.

(** C5. With an invertible posterior covariance in the instance and a
    non-zero sum of the raw weights [Sigma_post^-1 pi_post^T],
    [_calculate_max_sharpe_weights] returns the raw weights divided by
    their sum, and the entries of the result add up to 1. *)
Theorem max_sharpe_weights_correct (self : BlackLitterman F)
    (Sigma_post : 'M[F]_N) (pi_post : 'rV[F]_N) :
  posterior_covariance self = PyArray (NdArray Sigma_post) ->
  posterior_expected_returns self = PyArray (NdArray pi_post) ->
  Sigma_post \in unitmx ->
  entries_sum (raw_weights Sigma_post pi_post) != 0 ->
  _calculate_max_sharpe_weights self
  = Ok (NdArray (normalised (raw_weights Sigma_post pi_post)))
  /\ entries_sum (normalised (raw_weights Sigma_post pi_post)) = 1.
Proof.
move=> self_cov self_ret invertible nz; split.
  exact: max_sharpe_weightsE.
exact: entries_sum_normalised.
Qed.

End Weights.

(** ** The pick matrix *)

Section PickMatrix.

Variable F : realFieldType.

Local Notation pick_dict := (pick_dict F).
Local Notation ndarray := (ndarray F).

Lemma get_set_at (a : ndarray) r c v i j :
  (i < nrows a)%N -> (j < ncols a)%N ->
  get (set_at a r c v) i j = if (i == r) && (j == c) then v else get a i j.
Proof. by move=> hi hj; rewrite /set_at get_array_of. Qed.

Section Row.

Variables (names : seq string) (row : nat).

(** The assignments of one [.loc] call, on the array of the table. *)
Let write (a : ndarray) (d : pick_dict) : ndarray :=
  foldl (fun a p => set_at a row (seq.index p.1 names) p.2) a d.

Lemma write_shape a d :
  nrows (write a d) = nrows a /\ ncols (write a d) = ncols a.
Proof.
elim: d a => [|p d IH] a //=.
by case: (IH (set_at a row (seq.index p.1 names) p.2)).
Qed.

Lemma get_write a d i j :
  (i < nrows a)%N -> (j < ncols a)%N ->
  get (write a d) i j
  = if i == row then cell names d j (get a i j) else get a i j.
Proof.
elim: d a => [|p d IH] a hi hj /=; first by case: ifP.
rewrite IH // get_set_at // [j == _]eq_sym.
by case: (i == row).
Qed.

End Row.

(** *** The value of a cell *)

Lemma cell_untouched names (d : pick_dict) j old :
  (forall a, a \in keys d -> seq.index a names != j) -> cell names d j old = old.
Proof.
elim: d old => [|p d IH] old //= other.
rewrite (negbTE (other p.1 _)) ?mem_head // IH // => a a_d.
by apply: other; rewrite inE a_d orbT.
Qed.

Lemma cell_assigned names (d : pick_dict) a c old :
  uniq (keys d) -> known_assets names d -> (a, c) \in d ->
  cell names d (seq.index a names) old = c.
Proof.
elim: d old => [|p d IH] old //= /andP[p_fresh uniq_d] /andP[p_known known_d].
rewrite inE => /orP[/eqP a_p|a_d] /=; last exact: IH.
move: p_fresh p_known; rewrite -{}a_p /= eqxx => a_fresh a_known.
rewrite cell_untouched // => b b_d.
apply: contraNneq a_fresh => same_index.
have b_known : b \in names by move/allP: known_d; apply.
by rewrite -(nth_index ""%string a_known) -same_index nth_index.
Qed.

(** *** The labels of one assignment *)

Lemma new_labels_known names (d : pick_dict) :
  known_assets names d -> new_labels names d = [::].
Proof.
rewrite /known_assets /new_labels.
by elim: (keys d) => //= a l IH /andP[-> /IH].
Qed.

Lemma new_labels_unknown names (d : pick_dict) :
  ~~ known_assets names d -> (0 < size (new_labels names d))%N.
Proof. by rewrite /known_assets /new_labels -has_predC size_filter has_count. Qed.

Lemma widen0 (a : ndarray) : widen a 0 = a.
Proof.
case: a => m n A; apply: ndarray_ext; rewrite /= ?addn0 // => i j.
by rewrite -(getE A) get_array_of //= addn0.
Qed.

Lemma get_widen (a : ndarray) m i j :
  (i < nrows a)%N -> (j < ncols a + m)%N ->
  get (widen a m) i j = get a i j.
Proof. by move=> hi hj; rewrite /widen get_array_of. Qed.

(** *** The loop *)

Section Loop.

Variables (K : nat) (names : seq string).

Lemma loc_setitem_known (a : ndarray) i d :
  (i < K)%N -> known_assets names d ->
  loc_setitem (MkFrame (RangeIndex K) names a) i d
  = Ok (MkFrame (RangeIndex K) names
          (foldl (fun a p => set_at a i (seq.index p.1 names) p.2) a d)).
Proof.
move=> i_lt known.
by rewrite /loc_setitem /= i_lt new_labels_known //= cats0 widen0.
Qed.

Lemma fill_pick_matrix_known picks (a : ndarray) i :
  (i + size picks <= K)%N -> all (known_assets names) picks ->
  exists2 a' : ndarray,
    fill_pick_matrix (MkFrame (RangeIndex K) names a) i picks
    = Ok (MkFrame (RangeIndex K) names a')
  & [/\ nrows a' = nrows a, ncols a' = ncols a
      & forall r c, (r < nrows a)%N -> (c < ncols a)%N ->
        get a' r c
        = if (i <= r < i + size picks)%N
          then cell names (nth [::] picks (r - i)) c (get a r c)
          else get a r c].
Proof.
elim: picks a i => [|d picks IH] a i /=.
  by move=> _ _; exists a => //; split=> // r c _ _; rewrite addn0; case: ltngtP.
rewrite addnS => bound /andP[known_d known_picks].
have i_lt : (i < K)%N by apply: leq_trans bound; rewrite ltnS leq_addr.
rewrite loc_setitem_known //=.
set a1 := foldl _ a d.
have [rows1 cols1] := write_shape names i a d.
have [a' -> [rows' cols' entries]] := IH a1 i.+1 bound known_picks.
exists a' => //; split; rewrite ?rows' ?cols' //.
move=> r c r_lt c_lt; rewrite entries ?rows1 ?cols1 // get_write // addSn.
case: (ltngtP i r) => [i_lt_r|r_lt_i|<-] /=.
- by rewrite -(subnSK i_lt_r).
- by [].
- by rewrite ltnS leq_addr subnn.
Qed.

End Loop.

Lemma get_np_zeros m n i j : get (np_zeros F m n) i j = 0.
Proof.
by rewrite /get /=; case: insub => // i'; case: insub => // j'; rewrite mxE.
Qed.

(** The pick matrix, cell by cell, when every name is known. *)
Lemma create_pick_matrix_known (K N : nat) (picks : seq pick_dict)
    (names : seq string) :
  size names = N -> size picks = K -> all (known_assets names) picks ->
  exists2 P : 'M[F]_(K, N),
    _create_pick_matrix K N picks names = Ok (NdArray P)
  & forall (k : 'I_K) (c : nat), (c < N)%N ->
      get (NdArray P) k c = cell names (nth [::] picks k) c 0.
Proof.
move=> sz_names sz_picks known.
have bound : (0 + size picks <= K)%N by rewrite add0n sz_picks.
rewrite /_create_pick_matrix /new_frame /= sz_names eqxx /=.
have [a' -> [/= rows' cols' entries]] :=
  fill_pick_matrix_known (np_zeros F K N) bound known.
pose P : 'M[F]_(K, N) := \matrix_(i, j) get a' i j.
have a'_P : a' = NdArray P by apply: ndarray_ext => // i j; rewrite mxE.
exists P; rewrite /= ?a'_P // => k c c_lt.
have k_lt : (k < size picks)%N by rewrite sz_picks.
by rewrite -a'_P entries // k_lt subn0 get_np_zeros.
Qed.

(** Distinct asset names and distinct keys: the coefficient of each pair
    is in the row of its view at the position of its asset, and the other
    entries of the row are zero. *)
Lemma create_pick_matrix_cells (K N : nat) (picks : seq pick_dict)
    (names : seq string) :
  size names = N -> uniq names -> size picks = K ->
  all (fun d => uniq (keys d)) picks -> all (known_assets names) picks ->
  exists2 P : 'M[F]_(K, N),
    _create_pick_matrix K N picks names = Ok (NdArray P)
  & forall k : 'I_K,
      (forall a c, (a, c) \in nth [::] picks k ->
         get (NdArray P) k (seq.index a names) = c)
      /\ (forall j : 'I_N,
            (forall a, a \in keys (nth [::] picks k) ->
               seq.index a names != j) ->
            P k j = 0).
Proof.
move=> sz_names _ sz_picks uniq_keys known.
have [P built row_k] := create_pick_matrix_known sz_names sz_picks known.
exists P => // k; have k_lt : (k < size picks)%N by rewrite sz_picks.
split=> [a c a_c|j other].
- have known_k : known_assets names (nth [::] picks k).
    by move/(all_nthP [::]): known; apply.
  have a_key : a \in keys (nth [::] picks k).
    by apply/mapP; exists (a, c).
  have a_known : a \in names by move/allP: known_k; apply.
  have uniq_k : uniq (keys (nth [::] picks k)).
    by move/(all_nthP [::]): uniq_keys; apply.
  have a_lt : (seq.index a names < N)%N by rewrite -sz_names index_mem.
  by rewrite row_k // (cell_assigned _ uniq_k known_k a_c).
- by rewrite -(getE P k j) row_k // cell_untouched.
Qed.

Lemma known_with_new_labels names (d : pick_dict) :
  known_assets (names ++ new_labels names d) d.
Proof.
apply/allP => a a_d; rewrite mem_cat /new_labels mem_filter a_d andbT.
exact: orbN.
Qed.

(** One view whose specification uses a name that is no asset name:
    [.loc] adds a column for each such name, after those of the assets,
    and writes the coefficients of the view in the one row. *)
Lemma create_pick_matrix_enlarged (N : nat) (names : seq string)
    (d : pick_dict) :
  size names = N -> ~~ known_assets names d ->
  let labels := names ++ new_labels names d in
  exists2 a : ndarray,
    _create_pick_matrix 1 N [:: d] names = Ok a
  & [/\ nrows a = 1%N, ncols a = size labels, (N < ncols a)%N
      & forall c, (c < size labels)%N -> get a 0 c = cell labels d c 0].
Proof.
move=> sz_names unknown labels.
have more := new_labels_unknown unknown.
rewrite /_create_pick_matrix /new_frame /= sz_names eqxx /= /loc_setitem /=.
rewrite andbF /= -/labels.
set a0 := widen _ _; set a := foldl _ a0 d; exists a => //.
have [rows cols] := write_shape labels 0 a0 d.
have sz_labels : size labels = (N + size (new_labels names d))%N.
  by rewrite size_cat sz_names.
split; rewrite ?rows ?cols ?sz_labels //; first by rewrite -ltn_subLR ?subnn.
by move=> c c_lt; rewrite get_write //= get_widen // get_np_zeros.
Qed.

(** C7. A pick specification that uses a name which is no asset name
    raises nothing.  For one view with such a specification (the asset
    names distinct, the keys of the dict distinct), the construction
    returns an array of one row and more than [N] columns: [.loc] has
    added a column for each new name, after those of the assets, and each
    coefficient is at the position of its label.  (With names that are
    all asset names the matrix is the one the specification describes,
    [create_pick_matrix_cells].) *)
Theorem create_pick_matrix_unknown_name (N : nat) (names : seq string)
    (d : pick_dict) :
  size names = N -> uniq names -> uniq (keys d) ->
  ~~ known_assets names d ->
  let labels := names ++ new_labels names d in
  exists2 a : ndarray,
    _create_pick_matrix 1 N [:: d] names = Ok a
  & [/\ nrows a = 1%N, ncols a = size labels, (N < ncols a)%N
      & forall x c, (x, c) \in d -> get a 0 (seq.index x labels) = c].
Proof.
move=> sz_names _ uniq_d unknown labels.
have [a built [rows cols more cells]] :=
  create_pick_matrix_enlarged sz_names unknown.
exists a => //; split=> // x c x_c.
have known := known_with_new_labels names d.
rewrite cells; last exact: (cell_assigned _ uniq_d known x_c).
by rewrite index_mem; move/allP: known; apply; apply/mapP; exists (x, c).
Qed.

End PickMatrix.

(** ** Whole calls *)

Section Calls.

Variable F : realFieldType.

Local Notation pick_dict := (pick_dict F).

Variables (covariance : covariance_arg F) (market_weights : seq F).
Variable Sigma : 'M[F]_(size market_weights).
Hypothesis covariance_Sigma : covariance_values covariance = NdArray Sigma.

Variables (risk_aversion tau : F).
Variables (view_confidences : option (seq F)) (asset_names : option (seq string)).

Let N := size market_weights.
Let names := names_used covariance asset_names N.
Let pi := equilibrium_formula risk_aversion Sigma.

(** Running one step of a method body. *)
Lemma mbind_pure (A B : Type) (x : A) (k : A -> method F B) self :
  mbind (pure (Ok x)) k self = k x self.
Proof. by []. Qed.

Lemma mbind_raise (A B : Type) (e : exn) (k : A -> method F B) self :
  mbind (pure (Raise e)) k self = (self, Raise e).
Proof. by []. Qed.

Lemma mbind_assign (B : Type) f (k : unit -> method F B) self :
  mbind (assign f) k self = k tt (f self).
Proof. by []. Qed.

Lemma mbind_call (A B : Type) (f : BlackLitterman F -> result A)
    (k : A -> method F B) self :
  mbind (call f) k self = mbind (pure (f self)) k self.
Proof. by []. Qed.

Lemma pre_process_inputsE (views : seq F) :
  _pre_process_inputs covariance market_weights views
  = Ok (NdArray Sigma, NdArray (column market_weights), NdArray (column views)).
Proof.
rewrite /_pre_process_inputs !reshape_list_col /= -covariance_Sigma.
by case: (covariance).
Qed.

Lemma implied_equilibrium_returnsE :
  _calculate_implied_equilibrium_returns risk_aversion (NdArray Sigma)
    (NdArray (column market_weights))
  = Ok (NdArray pi).
Proof. by rewrite /_calculate_implied_equilibrium_returns dotE. Qed.

(** C10. When validation passes and the construction of the pick matrix
    raises, [allocate] ends with that exception; the field
    [implied_equilibrium_returns] holds the value of this call, and the
    three other fields hold what they held before the call. *)
Theorem allocate_pick_matrix_failure (views : seq F) (pick_list : seq pick_dict)
    (omega : option (ndarray F)) (omega_method : string)
    (self : BlackLitterman F) (e : exn) :
  _error_checks views pick_list omega_method view_confidences = Ok tt ->
  _create_pick_matrix (size views) N pick_list names = Raise e ->
  let after := allocate covariance market_weights views pick_list omega
                 risk_aversion tau omega_method view_confidences asset_names
                 self in
  [/\ after.2 = Raise e,
      implied_equilibrium_returns after.1 = PyArray (NdArray pi),
      weights after.1 = weights self,
      posterior_expected_returns after.1 = posterior_expected_returns self
    & posterior_covariance after.1 = posterior_covariance self].
Proof.
move=> checked failed after.
have -> : after
    = (set_implied_equilibrium_returns (PyArray (NdArray pi)) self, Raise e).
  rewrite /after /allocate /mbind /pure /assign checked pre_process_inputsE.
  by rewrite implied_equilibrium_returnsE -/N -/names failed.
by [].
Qed.

(** With the pick matrix built, the user-confidence mode fails as soon as
    the number of confidences is not the number of assets. *)
Lemma allocate_user_confidences_reshape_fails K (views : seq F)
    (pick_list : seq pick_dict) (confidences : seq F) (P : 'M[F]_(K, N))
    (self : BlackLitterman F) :
  _error_checks views pick_list user_confidences (Some confidences) = Ok tt ->
  _create_pick_matrix (size views) N pick_list names = Ok (NdArray P) ->
  size confidences != N ->
  (allocate covariance market_weights views pick_list None risk_aversion tau
     user_confidences (Some confidences) asset_names self).2
  = Raise (ValueError "cannot reshape array").
Proof.
move=> checked built ne_sz; rewrite /allocate -/N -/names checked.
rewrite mbind_pure pre_process_inputsE mbind_pure.
rewrite implied_equilibrium_returnsE mbind_pure mbind_assign built mbind_pure.
by rewrite idzorek_omega_reshape_fails.
Qed.

(** *** No views *)

Lemma unitmx0 (A : 'M[F]_0) : A \in unitmx.
Proof. by rewrite unitmxE det_mx00 unitr1. Qed.

Lemma posterior_returns_no_views n (v : 'cV[F]_n) (S : 'M[F]_n) (t : F)
    (P : 'M[F]_(0, n)) (Omega : 'M[F]_0) (Q : 'cV[F]_0) :
  posterior_returns_formula v S t P Omega Q = v.
Proof.
by rewrite /posterior_returns_formula [Q - _]flatmx0 mulmx0 addr0.
Qed.

Lemma posterior_covariance_no_views n (S : 'M[F]_n) (t : F)
    (P : 'M[F]_(0, n)) (Omega : 'M[F]_0) :
  posterior_covariance_formula S t P Omega = S + t *: S.
Proof.
by rewrite /posterior_covariance_formula [P]flatmx0 mulmx0 mul0mx subr0.
Qed.

Lemma create_pick_matrix_no_views :
  size names = N ->
  _create_pick_matrix (size (Nil F)) N [::] names = Ok (np_zeros F 0 N).
Proof. by move=> sz; rewrite /_create_pick_matrix /new_frame /= sz eqxx. Qed.

(** A call with no view and no pick specification, in the default mode
    and with no omega given: the posterior expected returns are the
    implied equilibrium returns [risk_aversion * Sigma * w], and the
    posterior covariance is [Sigma + tau Sigma]. *)
Lemma allocate_no_views (self : BlackLitterman F) :
  size names = N ->
  let after := allocate covariance market_weights [::] [::] None
                 risk_aversion tau prior_variance view_confidences
                 asset_names self in
  [/\ field_values (posterior_expected_returns after.1) = Some (NdArray pi^T),
      field_values (posterior_covariance after.1)
      = Some (NdArray (Sigma + tau *: Sigma))
    & exists2 held,
        field_values (implied_equilibrium_returns after.1) = Some held
      & same_vector held (NdArray pi)].
Proof.
move=> sz after.
pose self1 := set_implied_equilibrium_returns (PyArray (NdArray pi)) self.
pose self2 := set_posterior_expected_returns (PyArray (NdArray pi^T)) self1.
pose self3 :=
  set_posterior_covariance (PyArray (NdArray (Sigma + tau *: Sigma))) self2.
have run : after = mbind (call (@_calculate_max_sharpe_weights F))
    (fun w => mbind (assign (set_weights (PyArray w)))
       (fun _ => _post_processing names)) self3.
  rewrite /after /allocate -/N -/names.
  have -> : _error_checks [::] [::] prior_variance view_confidences = Ok tt.
    by [].
  rewrite mbind_pure pre_process_inputsE mbind_pure.
  rewrite implied_equilibrium_returnsE mbind_pure mbind_assign -/self1.
  rewrite create_pick_matrix_no_views // mbind_pure.
  rewrite prior_variance_omegaE mbind_pure reshape_same mbind_pure mbind_call.
  rewrite (posterior_expected_returnsE (pi := pi)) ?unitmx0 //.
  rewrite mbind_pure mbind_assign posterior_covarianceE ?unitmx0 //.
  rewrite mbind_pure mbind_assign.
  by rewrite posterior_returns_no_views posterior_covariance_no_views.
rewrite run mbind_call.
case invertible: (Sigma + tau *: Sigma \in unitmx); last first.
  have [e ->] :=
    max_sharpe_weights_no_inverse (erefl (posterior_covariance self3))
      (negbT invertible).
  by rewrite mbind_raise; split=> //; exists (NdArray pi) => //; left.
rewrite (max_sharpe_weightsE (Sigma_post := Sigma + tau *: Sigma)
           (pi_post := pi^T)) // mbind_pure mbind_assign.
rewrite /_post_processing /mbind /call /pure /assign /= /new_frame /=.
rewrite sz eqxx /= /new_frame_indexed /= sz eqxx /=.
by split=> //; exists (NdArray pi^T) => //; right.
Qed.

(** C6. A call with no view, no pick specification and no confidence in
    the mode [user_confidences]: validation accepts it, and the call ends
    in the [ValueError] of [np.reshape], which lays the confidences out as
    a row of as many entries as there are assets; the implied equilibrium
    returns are assigned, the two posterior fields and the weights are
    not.  (In the default mode the posterior fields hold the prior,
    [allocate_no_views].) *)
Theorem allocate_no_views_user_confidences (self : BlackLitterman F) :
  (0 < N)%N -> size names = N ->
  let after := allocate covariance market_weights [::] [::] None
                 risk_aversion tau user_confidences (Some [::]) asset_names
                 self in
  _error_checks (F := F) [::] [::] user_confidences (Some [::]) = Ok tt
  /\ [/\ after.2 = Raise (ValueError "cannot reshape array"),
      implied_equilibrium_returns after.1 = PyArray (NdArray pi),
      weights after.1 = weights self,
      posterior_expected_returns after.1 = posterior_expected_returns self
    & posterior_covariance after.1 = posterior_covariance self].
Proof.
move=> assets sz after.
have -> : after
    = (set_implied_equilibrium_returns (PyArray (NdArray pi)) self,
       Raise (ValueError "cannot reshape array")).
  rewrite /after /allocate -/N -/names.
  have -> : _error_checks (F := F) [::] [::] user_confidences (Some [::])
            = Ok tt by [].
  rewrite mbind_pure pre_process_inputsE mbind_pure.
  rewrite implied_equilibrium_returnsE mbind_pure mbind_assign.
  rewrite create_pick_matrix_no_views // mbind_pure.
  by rewrite idzorek_omega_reshape_fails ?mbind_raise //= -/N neq_ltn assets.
by [].
Qed.

End Calls.

(** * The statements at concrete inputs, over the rationals *)

Section Examples.

Local Notation Q2 := (1%:M : 'M[rat]_2).

Lemma two_views_invertible : Q2 *m (1 *: Q2) *m Q2^T + Q2 \in unitmx.
Proof.
rewrite scale1r mulmx1 trmx1 mulmx1 -raddfD /= unitmxE det_scalar unitfE.
exact: expf_neq0.
Qed.

Lemma posterior_expected_returns_witness :
  _calculate_posterior_expected_returns
    (MkBL PyNone (PyArray (NdArray (0 : 'cV[rat]_2))) PyNone PyNone)
    (NdArray Q2) 1 (NdArray Q2) (NdArray Q2) (NdArray (0 : 'cV[rat]_2))
  = Ok (NdArray (posterior_returns_formula 0 Q2 1 Q2 Q2 0)^T).
Proof.
by apply: posterior_expected_returns_correct => //; exact: two_views_invertible.
Defined.

Lemma posterior_covariance_witness :
  _calculate_posterior_covariance (NdArray Q2) 1 (NdArray Q2) (NdArray Q2)
  = Ok (NdArray (posterior_covariance_formula Q2 1 Q2 Q2)).
Proof.
by apply: posterior_covariance_correct => //; exact: two_views_invertible.
Defined.

Lemma identity_positive_semidefinite : positive_semidefinite Q2.
Proof.
move=> x; rewrite mulmx1 mxE; apply: sumr_ge0 => i _.
by rewrite mxE -expr2 sqr_ge0.
Qed.

Lemma prior_variance_omega_witness :
  let Omega := diagonal_of (Q2 *m (1 *: Q2) *m Q2^T) in
  [/\ _calculate_omega (NdArray Q2) 1 (NdArray Q2) None prior_variance
      = Ok (NdArray Omega),
      forall i j : 'I_2, i != j -> Omega i j = 0
    & forall i : 'I_2, 0 <= Omega i i].
Proof.
by apply: prior_variance_omega => //; exact: identity_positive_semidefinite.
Defined.

(** Two assets, covariance the identity, posterior returns [(1, 1)]. *)
Lemma raw_weights_sum :
  entries_sum (raw_weights Q2 (const_mx 1 : 'rV[rat]_2)) != 0.
Proof.
by rewrite /entries_sum /raw_weights invmx1 mul1mx !big_ord_recl big_ord0 !mxE.
Qed.

Lemma max_sharpe_weights_witness :
  _calculate_max_sharpe_weights
    (MkBL PyNone PyNone (PyArray (NdArray (const_mx 1 : 'rV[rat]_2)))
       (PyArray (NdArray Q2)))
  = Ok (NdArray (normalised (raw_weights Q2 (const_mx 1))))
  /\ entries_sum (normalised (raw_weights Q2 (const_mx 1 : 'rV[rat]_2))) = 1.
Proof.
apply: max_sharpe_weights_correct => //; first exact: unitmx1.
exact: raw_weights_sum.
Defined.

(** Two assets with equal market weights and no view. *)
Lemma allocate_no_views_two_assets :
  let w : seq rat := [:: 1; 1] in
  let pi := equilibrium_formula 2 (Q2 : 'M_(size w)) in
  let after := allocate (CovArray (NdArray Q2)) w [::] [::] None 2 1
                 prior_variance None None init in
  [/\ field_values (posterior_expected_returns after.1) = Some (NdArray pi^T),
      field_values (posterior_covariance after.1)
      = Some (NdArray (Q2 + 1 *: Q2))
    & exists2 held,
        field_values (implied_equilibrium_returns after.1) = Some held
      & same_vector held (NdArray pi)].
Proof. exact: (@allocate_no_views rat (CovArray (NdArray Q2)) [:: 1; 1]). Qed.

(** The same call in the mode [user_confidences], with no confidence. *)
Lemma allocate_no_views_user_confidences_witness :
  let w : seq rat := [:: 1; 1] in
  let after := allocate (CovArray (NdArray Q2)) w [::] [::] None 2 1
                 user_confidences (Some [::]) None init in
  _error_checks (F := rat) [::] [::] user_confidences (Some [::]) = Ok tt
  /\ [/\ after.2 = Raise (ValueError "cannot reshape array"),
      implied_equilibrium_returns after.1
      = PyArray (NdArray (equilibrium_formula 2 (Q2 : 'M_(size w)))),
      weights after.1 = PyNone,
      posterior_expected_returns after.1 = PyNone
    & posterior_covariance after.1 = PyNone].
Proof.
exact: (@allocate_no_views_user_confidences rat (CovArray (NdArray Q2))
          [:: 1; 1] 1%:M erefl 2 1 None init isT erefl).
Defined.

(** One view on an asset outside the universe of one asset: the array has
    the columns of [A] and of [X]. *)
Lemma create_pick_matrix_unknown_name_witness :
  let names := [:: "A"%string] in
  let d : pick_dict rat := [:: ("X"%string, 1)] in
  let labels := names ++ new_labels names d in
  exists2 a : ndarray rat,
    _create_pick_matrix 1 1 [:: d] names = Ok a
  & [/\ nrows a = 1%N, ncols a = size labels, (1 < ncols a)%N
      & forall x c, (x, c) \in d -> get a 0 (seq.index x labels) = c].
Proof.
exact: (@create_pick_matrix_unknown_name rat 1 [:: "A"%string]
          [:: ("X"%string, 1)] erefl isT isT isT).
Defined.

(** One view on the second of two assets. *)
Lemma create_pick_matrix_second_asset :
  let names := [:: "A"; "B"]%string in
  let picks : seq (pick_dict rat) := [:: [:: ("B"%string, 1)]] in
  exists2 P : 'M[rat]_(1, 2),
    _create_pick_matrix 1 2 picks names = Ok (NdArray P)
  & forall k : 'I_1,
      (forall a c, (a, c) \in nth [::] picks k ->
         get (NdArray P) k (seq.index a names) = c)
      /\ (forall j : 'I_2,
            (forall a, a \in keys (nth [::] picks k) ->
               seq.index a names != j) ->
            P k j = 0).
Proof.
exact: (@create_pick_matrix_cells rat 1 2 [:: [:: ("B"%string, 1)]]
          [:: "A"; "B"]%string erefl isT erefl isT isT).
Qed.

(** Two assets and one asset name: the table of the pick matrix cannot be
    built. *)
Lemma allocate_pick_matrix_failure_witness :
  let w : seq rat := [:: 1; 1] in
  let after := allocate (CovArray (NdArray Q2)) w [:: 0]
                 [:: [:: ("A"%string, 1)]] None 2 1 prior_variance None
                 (Some [:: "A"%string]) init in
  [/\ after.2 = Raise shape_error,
      implied_equilibrium_returns after.1
      = PyArray (NdArray (equilibrium_formula 2 (Q2 : 'M_(size w)))),
      weights after.1 = PyNone,
      posterior_expected_returns after.1 = PyNone
    & posterior_covariance after.1 = PyNone].
Proof.
exact: (@allocate_pick_matrix_failure rat (CovArray (NdArray Q2)) [:: 1; 1]
          1%:M erefl 2 1 None (Some [:: "A"%string]) [:: 0]
          [:: [:: ("A"%string, 1)]] None prior_variance init shape_error
          erefl erefl).
Defined.

(** C4, as the specification has it: [prior-variance] is one of the two
    documented mode names, and validation does not accept it. *)
Lemma documented_selector_rejected :
  ~ (is_ok (_error_checks (F := rat) [::] [::] "prior-variance" None)
     <-> "prior-variance"%string \in documented_methods).
Proof. by case=> _ /(_ isT). Qed.

(** The selector as the specification spells it ends the call in the
    check of the selector, with a fresh instance untouched. *)
Lemma omega_method_validation_witness :
  allocate (CovArray (NdArray Q2)) [:: 1; 1] [::] [::] None 2 1
    "prior-variance" None None init
  = (init, Raise (ValueError msg_omega_method)).
Proof.
exact: (proj2 (@omega_method_validation rat (CovArray (NdArray Q2))
                 [:: 1; 1] [::] [::] None 2 1 "prior-variance" None None
                 init) isT).
Defined.

(** Three views and two pick specifications: the call is misconfigured,
    and it ends in the error of validation. *)
Lemma allocate_configuration_errors_witness :
  allocate (CovArray (NdArray Q2)) [:: 1; 1] [:: 1; 1; 1] [:: [::]; [::]]
    None 2 1 prior_variance None None init
  = (init, Raise (ValueError msg_pick_list)).
Proof.
by case: (@allocate_configuration_errors rat (CovArray (NdArray Q2))
            [:: 1; 1] [:: 1; 1; 1] [:: [::]; [::]] None 2 1 prior_variance
            None None init) => _ /(_ isT).
Defined.

(** One view with confidence one half on two assets, in the
    user-confidence mode: validation passes, the pick matrix is built, and
    the call ends in the reshape of the confidences. *)
Lemma allocate_user_confidences_one_view :
  (allocate (CovArray (NdArray Q2)) [:: 1; 1] [:: 1]
     [:: [:: ("A"%string, 1)]] None 2 1 user_confidences
     (Some [:: 2%:R^-1]) (Some [:: "A"; "B"]%string) init).2
  = Raise (ValueError "cannot reshape array").
Proof.
have [P built _] :=
  @create_pick_matrix_known rat 1 2 [:: [:: ("A"%string, 1)]]
    [:: "A"; "B"]%string erefl erefl isT.
exact: (@allocate_user_confidences_reshape_fails rat
          (CovArray (NdArray Q2)) [:: 1; 1] 1%:M erefl 2 1
          (Some [:: "A"; "B"]%string) 1 [:: 1] [:: [:: ("A"%string, 1)]]
          [:: 2%:R^-1] P init erefl built isT).
Qed.

End Examples.

(** * Further properties of the methods *)

(** ** Arrays read outside their shape, and diagonal arrays *)

Section Diagonal.

Variable F : realFieldType.

Local Notation ndarray := (ndarray F).

Lemma get_outside (a : ndarray) i j :
  ~~ ((i < nrows a) && (j < ncols a))%N -> get a i j = 0.
Proof.
rewrite /get; case: insubP => [i' -> _|//].
by case: insubP => [j' ->|].
Qed.

Lemma get_np_diag_1d (l : seq F) i j : i != j -> get (np_diag_1d l) i j = 0.
Proof.
move=> /negbTE ne_ij.
case inside: ((i < size l) && (j < size l))%N; last first.
  by rewrite get_outside //= inside.
by case/andP: inside => hi hj; rewrite get_array_of // ne_ij.
Qed.

(** X1. Whatever the mode and whatever the arrays it is given, an omega
    that [_calculate_omega] returns is square, and zero off its
    diagonal. *)
Theorem omega_always_diagonal (covariance : ndarray) (tau : F)
    (pick_matrix : ndarray) (view_confidences : option (seq F))
    (omega_method : string) (omega : ndarray) :
  _calculate_omega covariance tau pick_matrix view_confidences omega_method
  = Ok omega ->
  nrows omega = ncols omega
  /\ forall i j : nat, i != j -> get omega i j = 0.
Proof.
rewrite /_calculate_omega; case: (if _ then _ else _) => [raw|e] //= [<-].
by split=> // i j; exact: get_np_diag_1d.
Qed.

End Diagonal.

(** ** The posterior, as a function of the views *)

Section PosteriorProperties.

Variable F : realFieldType.
Variables N K : nat.

Variables (Sigma : 'M[F]_N) (tau : F) (P : 'M[F]_(K, N)).

Local Notation M := (view_covariance Sigma tau P).

(** A view held with no uncertainty is met exactly by the posterior. *)
Lemma certain_views_met (pi : 'cV[F]_N) (Q : 'cV[F]_K) :
  M 0 \in unitmx ->
  P *m posterior_returns_formula pi Sigma tau P 0 Q = Q.
Proof.
rewrite /view_covariance /posterior_returns_formula addr0 => invertible.
by rewrite mulmxDr !mulmxA mulmxV // mul1mx addrC subrK.
Qed.

(** Views that say what the prior says leave it as it is. *)
Lemma agreeing_views_keep_prior (pi : 'cV[F]_N) (Omega : 'M[F]_K) :
  posterior_returns_formula pi Sigma tau P Omega (P *m pi) = pi.
Proof. by rewrite /posterior_returns_formula subrr mulmx0 addr0. Qed.

Lemma trmx_scale m n (c : F) (A : 'M[F]_(m, n)) : (c *: A)^T = c *: A^T.
Proof. by apply/matrixP => i j; rewrite !mxE. Qed.

Lemma view_covariance_symmetric (Omega : 'M[F]_K) :
  symmetric Sigma -> symmetric Omega -> symmetric (M Omega).
Proof.
rewrite /symmetric /view_covariance => sym_S sym_O.
by rewrite linearD /= !trmx_mul trmxK trmx_scale sym_S sym_O mulmxA.
Qed.

Lemma view_covariance_psd (Omega : 'M[F]_K) :
  positive_semidefinite Sigma -> 0 <= tau -> positive_semidefinite Omega ->
  positive_semidefinite (M Omega).
Proof.
move=> psd_S tau_ge0 psd_O y.
rewrite /view_covariance mulmxDr mulmxDl mxE addr_ge0 //.
have -> : y *m (P *m (tau *: Sigma) *m P^T) *m y^T
          = tau *: (y *m P *m Sigma *m (y *m P)^T).
  by rewrite trmx_mul !mulmxA -!scalemxAr -!scalemxAl.
by rewrite mxE mulr_ge0.
Qed.

Lemma posterior_covariance_formula_symmetric (Omega : 'M[F]_K) :
  symmetric Sigma -> symmetric Omega ->
  symmetric (posterior_covariance_formula Sigma tau P Omega).
Proof.
move=> sym_S sym_O; have := view_covariance_symmetric sym_S sym_O.
rewrite /symmetric /posterior_covariance_formula /view_covariance => sym_M.
rewrite linearB linearD /= !trmx_mul trmxK trmx_inv sym_M !trmx_scale sym_S.
by rewrite !mulmxA.
Qed.

(** The part the views take away from the prior covariance is a
    quadratic form of the inverse of the covariance of the views. *)
Lemma posterior_covariance_gain (Omega : 'M[F]_K) (x : 'rV[F]_N) :
  symmetric Sigma -> symmetric Omega -> M Omega \in unitmx ->
  let y := x *m (tau *: Sigma) *m P^T *m invmx (M Omega) in
  x *m posterior_covariance_formula Sigma tau P Omega *m x^T
  = x *m (Sigma + tau *: Sigma) *m x^T - y *m M Omega *m y^T.
Proof.
move=> sym_S sym_O invertible y.
have sym_M := view_covariance_symmetric sym_S sym_O.
rewrite /posterior_covariance_formula mulmxBr mulmxBl; congr (_ - _).
rewrite /y mulmxKV // !trmx_mul trmx_inv sym_M trmxK trmx_scale sym_S.
by rewrite !mulmxA.
Qed.

End PosteriorProperties.

(** ** The posterior methods on views of a special kind *)

Section PosteriorCalls.

Variable F : realFieldType.
Variables N K : nat.

Variables (Sigma : 'M[F]_N) (tau : F) (P : 'M[F]_(K, N)).

Local Notation M := (view_covariance Sigma tau P).

(** X3. Views held with no uncertainty (omega zero), their covariance
    [P (tau Sigma) P^T] invertible: the posterior expected returns meet
    every view exactly, [P r^T = Q]. *)
Theorem posterior_returns_certain_views (self : BlackLitterman F)
    (pi : 'cV[F]_N) (Q : 'cV[F]_K) :
  implied_equilibrium_returns self = PyArray (NdArray pi) ->
  M 0 \in unitmx ->
  exists2 r : 'rV[F]_N,
    _calculate_posterior_expected_returns self (NdArray Sigma) tau
      (NdArray P) (NdArray (0 : 'M[F]_K)) (NdArray Q) = Ok (NdArray r)
  & P *m r^T = Q.
Proof.
move=> self_pi invertible.
exists (posterior_returns_formula pi Sigma tau P 0 Q)^T.
  exact: posterior_expected_returnsE.
by rewrite trmxK certain_views_met.
Qed.

(** X4. Views that agree with the implied equilibrium returns,
    [Q = P pi]: the posterior expected returns are the implied
    equilibrium returns, whatever the uncertainty of the views. *)
Theorem posterior_returns_agreeing_views (self : BlackLitterman F)
    (pi : 'cV[F]_N) (Omega : 'M[F]_K) :
  implied_equilibrium_returns self = PyArray (NdArray pi) ->
  M Omega \in unitmx ->
  _calculate_posterior_expected_returns self (NdArray Sigma) tau (NdArray P)
    (NdArray Omega) (NdArray (P *m pi))
  = Ok (NdArray pi^T).
Proof.
move=> self_pi invertible.
by rewrite (posterior_expected_returnsE (pi := pi)) // agreeing_views_keep_prior.
Qed.

(** X5. A symmetric covariance and a symmetric omega give a symmetric
    posterior covariance. *)
Theorem posterior_covariance_symmetric (Omega : 'M[F]_K) :
  symmetric Sigma -> symmetric Omega -> M Omega \in unitmx ->
  exists2 S : 'M[F]_N,
    _calculate_posterior_covariance (NdArray Sigma) tau (NdArray P)
      (NdArray Omega) = Ok (NdArray S)
  & symmetric S.
Proof.
move=> sym_S sym_O invertible.
exists (posterior_covariance_formula Sigma tau P Omega).
  exact: posterior_covarianceE.
exact: posterior_covariance_formula_symmetric.
Qed.

(** X6. For a symmetric positive semi-definite covariance and omega and
    [tau >= 0], the views never add variance: the posterior variance of
    any portfolio [x] is at most its variance under [Sigma + tau Sigma]. *)
Theorem posterior_covariance_shrinks (Omega : 'M[F]_K) :
  symmetric Sigma -> positive_semidefinite Sigma ->
  symmetric Omega -> positive_semidefinite Omega ->
  0 <= tau -> M Omega \in unitmx ->
  exists2 S : 'M[F]_N,
    _calculate_posterior_covariance (NdArray Sigma) tau (NdArray P)
      (NdArray Omega) = Ok (NdArray S)
  & forall x : 'rV[F]_N,
      (x *m S *m x^T) 0 0 <= (x *m (Sigma + tau *: Sigma) *m x^T) 0 0.
Proof.
move=> sym_S psd_S sym_O psd_O tau_ge0 invertible.
exists (posterior_covariance_formula Sigma tau P Omega).
  exact: posterior_covarianceE.
move=> x; rewrite posterior_covariance_gain // mxE [X in _ + X]mxE lerBlDr lerDl.
exact: view_covariance_psd.
Qed.

Lemma posterior_expected_returns_singular (self : BlackLitterman F)
    (Omega : 'M[F]_K) (Q : 'cV[F]_K) (k : 'I_K) :
  row k (M Omega) = 0 ->
  _calculate_posterior_expected_returns self (NdArray Sigma) tau (NdArray P)
    (NdArray Omega) (NdArray Q) = Raise (LinAlgError "Singular matrix").
Proof.
move=> row0; rewrite /_calculate_posterior_expected_returns.
by rewrite !scaleE !TE !(dotE, addE, bind_Ok) (inv_zero_row row0).
Qed.



End PosteriorCalls.

(** ** The weights, up to scale *)

Section WeightsScale.

Variable F : realFieldType.
Variable N : nat.

Lemma entries_sum_scale (c : F) (v : 'cV[F]_N) :
  entries_sum (c *: v) = c * entries_sum v.
Proof.
by rewrite /entries_sum mulr_sumr; apply: eq_bigr => i _; rewrite mxE.
Qed.

Lemma normalised_scale (c : F) (v : 'cV[F]_N) :
  c != 0 -> normalised (c *: v) = normalised v.
Proof.
move=> nz; apply/colP => i; rewrite !mxE entries_sum_scale.
by rewrite -mulf_div divff // mul1r.
Qed.

Lemma raw_weights_scale_returns (c : F) (S : 'M[F]_N) (r : 'rV[F]_N) :
  raw_weights S (c *: r) = c *: raw_weights S r.
Proof. by rewrite /raw_weights trmx_scale -scalemxAr. Qed.

Lemma raw_weights_scale_covariance (c : F) (S : 'M[F]_N) (r : 'rV[F]_N) :
  c != 0 -> S \in unitmx ->
  raw_weights (c *: S) r = c^-1 *: raw_weights S r.
Proof.
move=> nz unit_S.
by rewrite /raw_weights invmxZ ?unitmxZ ?unitfE // -scalemxAl.
Qed.

(** X8. The weights depend on the posterior returns and on the posterior
    covariance only up to scale: multiplying either by a non-zero number
    leaves the weights as they are (the raw weights having a non-zero
    sum, so that the division is one). *)
Theorem max_sharpe_weights_scale_invariant (self : BlackLitterman F)
    (S : 'M[F]_N) (r : 'rV[F]_N) (c : F) :
  posterior_covariance self = PyArray (NdArray S) ->
  posterior_expected_returns self = PyArray (NdArray r) ->
  S \in unitmx -> entries_sum (raw_weights S r) != 0 -> c != 0 ->
  _calculate_max_sharpe_weights
    (set_posterior_expected_returns (PyArray (NdArray (c *: r))) self)
  = _calculate_max_sharpe_weights self
  /\ _calculate_max_sharpe_weights
       (set_posterior_covariance (PyArray (NdArray (c *: S))) self)
     = _calculate_max_sharpe_weights self.
Proof.
move=> self_cov self_ret unit_S _ nz.
rewrite (max_sharpe_weightsE self_cov self_ret) //; split.
  rewrite (max_sharpe_weightsE (Sigma_post := S) (pi_post := c *: r)) //.
  by rewrite raw_weights_scale_returns normalised_scale.
have unit_cS : c *: S \in unitmx by rewrite unitmxZ // unitfE.
rewrite (max_sharpe_weightsE (Sigma_post := c *: S) (pi_post := r)) //.
by rewrite raw_weights_scale_covariance // normalised_scale // invr_eq0.
Qed.

End WeightsScale.

(** ** The user-confidence mode with as many views as assets *)

Section IdzorekSquare.

Variable F : realFieldType.
Variable N : nat.

(** X2. With as many views as assets the reshape of the confidences
    fits: for confidences in [(0, 1]] and a positive semi-definite
    covariance, the omega matrix is diagonal with entry
    [(1 - c_k) / c_k * (P Sigma P^T)_kk], which is non-negative, and zero
    for a view of confidence 1; [tau] plays no part. *)
Theorem idzorek_omega_as_many_views_as_assets (Sigma : 'M[F]_N) (tau : F)
    (P : 'M[F]_N) (confidences : seq F) :
  size confidences = N ->
  all (fun c => 0 < c <= 1) confidences ->
  positive_semidefinite Sigma ->
  let Omega := idzorek_formula confidences Sigma P in
  [/\ _calculate_omega (NdArray Sigma) tau (NdArray P) (Some confidences)
        user_confidences = Ok (NdArray Omega),
      forall i : 'I_N, 0 <= Omega i i
    & forall i : 'I_N, nth 0 confidences i = 1 -> Omega i i = 0].
Proof.
move=> sz in_range psd Omega; split.
- exact: idzorek_omega_square.
- move=> i; rewrite mxE eqxx view_variance mulr_ge0 //.
  have /andP[c_gt0 c_le1] : 0 < nth 0 confidences i <= 1.
    by move/(all_nthP 0): in_range; apply; rewrite sz.
  by rewrite divr_ge0 ?subr_ge0 // ltW.
- by move=> i c_1; rewrite mxE eqxx c_1 subrr mul0r mul0r.
Qed.

End IdzorekSquare.

(** ** The tables of the results *)

Section PostProcessing.

Variable F : realFieldType.
Variable N : nat.

Lemma post_processingE (names : seq string) (self : BlackLitterman F)
    (w pi : 'cV[F]_N) (r : 'rV[F]_N) (S : 'M[F]_N) :
  weights self = PyArray (NdArray w) ->
  implied_equilibrium_returns self = PyArray (NdArray pi) ->
  posterior_expected_returns self = PyArray (NdArray r) ->
  posterior_covariance self = PyArray (NdArray S) ->
  _post_processing names self
  = if size names == N then (labelled_results names w pi r S, Ok tt)
    else (set_weights (PyArray (NdArray w^T)) self, Raise shape_error).
Proof.
case: self => w0 pi0 r0 S0 /= -> -> -> ->.
rewrite /_post_processing /mbind /call /pure /assign /= /new_frame /=.
by case sz: (size names == N) => //=; rewrite /new_frame_indexed /= sz.
Qed.

(** X9. On an instance that holds the four arrays of a call on [N]
    assets, [_post_processing] changes no number: it lays the weights and
    the implied returns out as rows and labels the four results with the
    asset names.  With another number of names it raises at the first
    table, and leaves the weights transposed. *)
Theorem post_processing_tables (names : seq string) (self : BlackLitterman F)
    (w pi : 'cV[F]_N) (r : 'rV[F]_N) (S : 'M[F]_N) :
  weights self = PyArray (NdArray w) ->
  implied_equilibrium_returns self = PyArray (NdArray pi) ->
  posterior_expected_returns self = PyArray (NdArray r) ->
  posterior_covariance self = PyArray (NdArray S) ->
  _post_processing names self
  = if size names == N then (labelled_results names w pi r S, Ok tt)
    else (set_weights (PyArray (NdArray w^T)) self, Raise shape_error).
Proof. exact: post_processingE. Qed.

End PostProcessing.

(** ** The default asset names *)

Section DefaultNames.

Variable F : realFieldType.

Lemma to_uint_nonnil (n : nat) : Nat.to_uint n <> Decimal.Nil.
Proof.
move=> to_nil; have := DecimalNat.Unsigned.of_to n.
rewrite to_nil /= => n_0; move: to_nil; rewrite -n_0.
by [].
Qed.

Lemma str_inj : injective str.
Proof.
move=> m n same; apply: DecimalNat.Unsigned.to_uint_inj.
have := NilZero.usu _ (@to_uint_nonnil m).
rewrite -/(str m) same /str (NilZero.usu _ (@to_uint_nonnil n)).
by case=> ->.
Qed.

(** X10. A bare array for the covariance and no asset names: the assets
    are named by their positions in decimal, [N] names that are pairwise
    distinct, so that the name of position [j] picks column [j]. *)
Theorem default_asset_names_positions (a : ndarray F) (N : nat) :
  let names := default_asset_names (CovArray a) N in
  [/\ size names = N, uniq names
    & forall j : nat, (j < N)%N ->
        nth ""%string names j = str j /\ seq.index (str j) names = j].
Proof.
move=> names; have sz : size names = N by rewrite size_map size_iota.
have uniq_names : uniq names by rewrite map_inj_uniq ?iota_uniq //; exact: str_inj.
split=> // j j_lt.
have nth_j : nth ""%string names j = str j.
  by rewrite (nth_map 0%N) ?size_iota // nth_iota.
by split=> //; rewrite -nth_j index_uniq ?sz.
Qed.

End DefaultNames.

(** ** Views that pick nothing *)

Section ZeroRow.

Variable F : realFieldType.

(** A view that picks no asset has no variance in the mode
    [prior_variance], and its row of the matrix to invert is zero. *)
Lemma empty_view_zero_row N K (Sigma : 'M[F]_N) (tau : F) (P : 'M[F]_(K, N))
    (k : 'I_K) :
  row k P = 0 ->
  row k (view_covariance Sigma tau P (diagonal_of (P *m (tau *: Sigma) *m P^T)))
  = 0.
Proof.
move=> row0.
have row_M : row k (P *m (tau *: Sigma) *m P^T) = 0.
  by rewrite -!mulmxA row_mul row0 mul0mx.
rewrite /view_covariance linearD /= row_M add0r.
apply/rowP => j; rewrite !mxE; case: eqP => // _.
by move/rowP/(_ j): row_M; rewrite !mxE.
Qed.

(** An asset with no variance and no covariance with the others keeps
    none in the posterior covariance. *)
Lemma posterior_covariance_zero_row N K (Sigma : 'M[F]_N) (tau : F)
    (P : 'M[F]_(K, N)) (Omega : 'M[F]_K) (j : 'I_N) :
  row j Sigma = 0 -> row j (posterior_covariance_formula Sigma tau P Omega) = 0.
Proof.
move=> row0; rewrite /posterior_covariance_formula !linearD /= linearN /=.
rewrite linearZ /= row0 scaler0 addr0.
by rewrite -!mulmxA row_mul linearZ /= row0 scaler0 mul0mx subr0.
Qed.

End ZeroRow.

(** ** Whole calls, from the arguments to the tables *)

Local Notation "x <~ m ;; k" := (mbind m (fun x => k))
  (at level 61, m at next level, right associativity) : py_scope.

Section PickMatrixOf.

Variable F : realFieldType.

(** The pick matrix of known names, as a matrix. *)
Lemma create_pick_matrixE (K N : nat) (picks : seq (pick_dict F))
    (names : seq string) :
  size names = N -> size picks = K -> all (known_assets names) picks ->
  _create_pick_matrix K N picks names
  = Ok (NdArray (pick_matrix_of K N names picks)).
Proof.
move=> sz_names sz_picks known.
have [P -> entries] := create_pick_matrix_known sz_names sz_picks known.
congr (Ok (NdArray _)); apply/matrixP => k c.
by rewrite mxE -entries // getE.
Qed.

Lemma create_pick_matrix_names (K N : nat) (picks : seq (pick_dict F))
    (names : seq string) :
  size names != N -> _create_pick_matrix K N picks names = Raise shape_error.
Proof.
by move=> /negbTE ne_sz; rewrite /_create_pick_matrix /new_frame /= ne_sz.
Qed.

(** A pick specification with no pair, or with zero for every
    coefficient, is a row of zeros. *)
Lemma cell_zero (names : seq string) (d : pick_dict F) (j : nat) :
  all (fun p => p.2 == 0) d -> cell names d j 0 = 0.
Proof.
rewrite /cell; elim: d => [|p d IH] //= /andP[/eqP -> zeros].
by rewrite if_same; exact: IH.
Qed.

Lemma pick_matrix_of_zero_row (K N : nat) (picks : seq (pick_dict F))
    (names : seq string) (k : 'I_K) :
  all (fun p => p.2 == 0) (nth [::] picks k) ->
  row k (pick_matrix_of K N names picks) = 0.
Proof. by move=> zeros; apply/rowP => c; rewrite !mxE cell_zero. Qed.

End PickMatrixOf.

Section AllocateRuns.

Variable F : realFieldType.

Local Notation pick_dict := (pick_dict F).

Variables (covariance : covariance_arg F) (market_weights : seq F).
Variable Sigma : 'M[F]_(size market_weights).
Hypothesis covariance_Sigma : covariance_values covariance = NdArray Sigma.

Variables (risk_aversion tau : F).
Variables (view_confidences : option (seq F)) (asset_names : option (seq string)).
Variables (views : seq F) (pick_list : seq pick_dict).

Let N := size market_weights.
Let K := size views.
Let names := names_used covariance asset_names N.
Let pi := equilibrium_formula risk_aversion Sigma.
Let P : 'M[F]_(K, N) := pick_matrix_of K N names pick_list.
Let Q : 'cV[F]_K := column views.

(** The posterior of the call, for the omega it ends up with. *)
Let r (Omega : 'M[F]_K) : 'rV[F]_N :=
  (posterior_returns_formula pi Sigma tau P Omega Q)^T.
Let S (Omega : 'M[F]_K) : 'M[F]_N :=
  posterior_covariance_formula Sigma tau P Omega.

(** The instance once the implied equilibrium returns are assigned, and
    once the two posterior results are. *)
Let implied (self : BlackLitterman F) : BlackLitterman F :=
  set_implied_equilibrium_returns (PyArray (NdArray pi)) self.
Let posterior (Omega : 'M[F]_K) (self : BlackLitterman F) : BlackLitterman F :=
  set_posterior_covariance (PyArray (NdArray (S Omega)))
    (set_posterior_expected_returns (PyArray (NdArray (r Omega)))
       (implied self)).

(** What [allocate] does from the posterior expected returns on. *)
Let from_posterior (omega : ndarray F) : method F unit :=
  (ret <~ call (fun self =>
                  _calculate_posterior_expected_returns self (NdArray Sigma)
                    tau (NdArray P) omega (NdArray Q));;
   _ <~ assign (set_posterior_expected_returns (PyArray ret));;
   cov <~ pure (_calculate_posterior_covariance (NdArray Sigma) tau
                  (NdArray P) omega);;
   _ <~ assign (set_posterior_covariance (PyArray cov));;
   w <~ call (@_calculate_max_sharpe_weights F);;
   _ <~ assign (set_weights (PyArray w));;
   _post_processing names)%py.

Lemma allocate_to_pick_matrix (omega : option (ndarray F))
    (omega_method : string) (self : BlackLitterman F) :
  _error_checks views pick_list omega_method view_confidences = Ok tt ->
  allocate covariance market_weights views pick_list omega risk_aversion tau
    omega_method view_confidences asset_names self
  = (pick_matrix <~ pure (_create_pick_matrix K N pick_list names);;
     given <~ pure (if omega is Some g then Ok g
                    else _calculate_omega (NdArray Sigma) tau pick_matrix
                           view_confidences omega_method);;
     omega' <~ pure (reshape given K K);;
     ret <~ call (fun self =>
                    _calculate_posterior_expected_returns self (NdArray Sigma)
                      tau pick_matrix omega' (NdArray Q));;
     _ <~ assign (set_posterior_expected_returns (PyArray ret));;
     cov <~ pure (_calculate_posterior_covariance (NdArray Sigma) tau
                    pick_matrix omega');;
     _ <~ assign (set_posterior_covariance (PyArray cov));;
     w <~ call (@_calculate_max_sharpe_weights F);;
     _ <~ assign (set_weights (PyArray w));;
     _post_processing names)%py (implied self).
Proof.
move=> checked; rewrite /allocate checked mbind_pure.
rewrite (pre_process_inputsE covariance_Sigma) mbind_pure.
by rewrite implied_equilibrium_returnsE mbind_pure mbind_assign.
Qed.

Lemma allocate_to_omega (omega : option (ndarray F)) (omega_method : string)
    (self : BlackLitterman F) :
  _error_checks views pick_list omega_method view_confidences = Ok tt ->
  size names = N -> all (known_assets names) pick_list ->
  allocate covariance market_weights views pick_list omega risk_aversion tau
    omega_method view_confidences asset_names self
  = (given <~ pure (if omega is Some g then Ok g
                    else _calculate_omega (NdArray Sigma) tau (NdArray P)
                           view_confidences omega_method);;
     omega' <~ pure (reshape given K K);;
     from_posterior omega')%py (implied self).
Proof.
move=> checked sz_names known; rewrite allocate_to_pick_matrix //.
have sz_picks : size pick_list = K.
  move: checked; rewrite /_error_checks.
  by case: eqP => // ->.
by rewrite create_pick_matrixE // mbind_pure.
Qed.

Lemma from_posterior_singular_views (Omega : 'M[F]_K) (k : 'I_K)
    (self : BlackLitterman F) :
  row k (view_covariance Sigma tau P Omega) = 0 ->
  from_posterior (NdArray Omega) self
  = (self, Raise (LinAlgError "Singular matrix")).
Proof.
move=> row0; rewrite /from_posterior mbind_call.
by rewrite (posterior_expected_returns_singular _ _ row0).
Qed.

Lemma from_posterior_to_weights (Omega : 'M[F]_K) (self : BlackLitterman F) :
  view_covariance Sigma tau P Omega \in unitmx ->
  from_posterior (NdArray Omega) (implied self)
  = (w <~ call (@_calculate_max_sharpe_weights F);;
     _ <~ assign (set_weights (PyArray w));;
     _post_processing names)%py (posterior Omega self).
Proof.
move=> invertible; rewrite /from_posterior mbind_call.
rewrite (posterior_expected_returnsE (pi := pi)) // mbind_pure mbind_assign.
by rewrite posterior_covarianceE // mbind_pure mbind_assign.
Qed.

Lemma from_posterior_singular_posterior (Omega : 'M[F]_K) (j : 'I_N)
    (self : BlackLitterman F) :
  view_covariance Sigma tau P Omega \in unitmx ->
  row j (S Omega) = 0 ->
  from_posterior (NdArray Omega) (implied self)
  = (posterior Omega self, Raise (LinAlgError "Singular matrix")).
Proof.
move=> invertible row0; rewrite from_posterior_to_weights // mbind_call.
by rewrite (max_sharpe_weights_zero_row (Sigma_post := S Omega) (k := j)).
Qed.

Lemma from_posterior_succeeds (Omega : 'M[F]_K) (self : BlackLitterman F) :
  size names = N ->
  view_covariance Sigma tau P Omega \in unitmx ->
  S Omega \in unitmx ->
  from_posterior (NdArray Omega) (implied self)
  = (labelled_results names
       (normalised (raw_weights (S Omega) (r Omega))) pi (r Omega) (S Omega),
     Ok tt).
Proof.
move=> sz_names invertible invertible_post.
rewrite from_posterior_to_weights // mbind_call.
rewrite (max_sharpe_weightsE (Sigma_post := S Omega) (pi_post := r Omega)) //.
rewrite mbind_pure mbind_assign.
rewrite (@post_processingE F N names _
           (normalised (raw_weights (S Omega) (r Omega))) pi (r Omega)
           (S Omega)) //.
by rewrite sz_names eqxx.
Qed.

(** X13. A call in the default mode with no omega given, as many pick
    specifications as views, one name per asset and only known names in
    the pick specifications: when [P (tau Sigma) P^T + Omega] and the
    posterior covariance have an inverse (and the raw weights a non-zero
    sum), the call returns, and the instance holds the four tables of the
    model, whatever it held before: [Omega] is the diagonal of
    [P (tau Sigma) P^T], the returns and the covariance are the posterior
    formulas, the weights the normalised maximum-Sharpe weights. *)
Theorem allocate_prior_variance_succeeds (self : BlackLitterman F) :
  size pick_list = K -> size names = N ->
  all (known_assets names) pick_list ->
  let Omega := diagonal_of (P *m (tau *: Sigma) *m P^T) in
  view_covariance Sigma tau P Omega \in unitmx ->
  S Omega \in unitmx ->
  entries_sum (raw_weights (S Omega) (r Omega)) != 0 ->
  allocate covariance market_weights views pick_list None risk_aversion tau
    prior_variance view_confidences asset_names self
  = (labelled_results names
       (normalised (raw_weights (S Omega) (r Omega))) pi (r Omega) (S Omega),
     Ok tt).
Proof.
move=> sz_picks sz_names known Omega invertible invertible_post _.
have checked :
    _error_checks views pick_list prior_variance view_confidences = Ok tt.
  by rewrite /_error_checks sz_picks eqxx.
rewrite allocate_to_omega // prior_variance_omegaE mbind_pure.
by rewrite reshape_same mbind_pure from_posterior_succeeds.
Qed.

(** X14. The same call with an omega given, in either mode: the array is
    reshaped to [K] rows and [K] columns and used as it is, off-diagonal
    entries included. *)
Theorem allocate_given_omega_succeeds (given : ndarray F) (Omega : 'M[F]_K)
    (omega_method : string) (self : BlackLitterman F) :
  _error_checks views pick_list omega_method view_confidences = Ok tt ->
  size names = N -> all (known_assets names) pick_list ->
  reshape given K K = Ok (NdArray Omega) ->
  view_covariance Sigma tau P Omega \in unitmx ->
  S Omega \in unitmx ->
  entries_sum (raw_weights (S Omega) (r Omega)) != 0 ->
  allocate covariance market_weights views pick_list (Some given)
    risk_aversion tau omega_method view_confidences asset_names self
  = (labelled_results names
       (normalised (raw_weights (S Omega) (r Omega))) pi (r Omega) (S Omega),
     Ok tt).
Proof.
move=> checked sz_names known reshaped invertible invertible_post _.
rewrite allocate_to_omega // mbind_pure reshaped mbind_pure.
by rewrite from_posterior_succeeds.
Qed.

(** X15. An omega given with another number of entries than [K * K]: the
    call ends in the [ValueError] of the reshape, with the implied
    equilibrium returns assigned and nothing else. *)
Theorem allocate_given_omega_wrong_size (given : ndarray F)
    (omega_method : string) (self : BlackLitterman F) :
  _error_checks views pick_list omega_method view_confidences = Ok tt ->
  size names = N -> all (known_assets names) pick_list ->
  (nrows given * ncols given != K * K)%N ->
  allocate covariance market_weights views pick_list (Some given)
    risk_aversion tau omega_method view_confidences asset_names self
  = (implied self, Raise (ValueError "cannot reshape array")).
Proof.
move=> checked sz_names known /negbTE wrong_size.
by rewrite allocate_to_omega // mbind_pure /reshape wrong_size.
Qed.

(** X16. A view that picks nothing (its pick specification gives the
    coefficient zero to every asset it names), in the default mode with
    no omega given: its row of the pick matrix and its variance are zero,
    and the call ends in [LinAlgError] with the implied equilibrium
    returns assigned and nothing else. *)
Theorem allocate_view_picking_nothing (k : nat) (self : BlackLitterman F) :
  size pick_list = K -> size names = N ->
  all (known_assets names) pick_list ->
  (k < K)%N -> all (fun p => p.2 == 0) (nth [::] pick_list k) ->
  allocate covariance market_weights views pick_list None risk_aversion tau
    prior_variance view_confidences asset_names self
  = (implied self, Raise (LinAlgError "Singular matrix")).
Proof.
move=> sz_picks sz_names known k_lt zeros.
have checked :
    _error_checks views pick_list prior_variance view_confidences = Ok tt.
  by rewrite /_error_checks sz_picks eqxx.
rewrite allocate_to_omega // prior_variance_omegaE mbind_pure.
rewrite reshape_same mbind_pure.
apply: (@from_posterior_singular_views _ (Ordinal k_lt)).
by apply: empty_view_zero_row; exact: pick_matrix_of_zero_row.
Qed.

(** X17. An asset with no variance and no covariance with the others
    (its row of the covariance is zero), in the default mode with no omega
    given and views that can be combined: its row of the posterior
    covariance is zero too, and the call ends in [LinAlgError] at the
    weights; the implied returns and the two posterior results are
    assigned, as arrays, and the weights are what they were. *)
Theorem allocate_asset_without_variance (j : nat) (self : BlackLitterman F) :
  size pick_list = K -> size names = N ->
  all (known_assets names) pick_list ->
  let Omega := diagonal_of (P *m (tau *: Sigma) *m P^T) in
  view_covariance Sigma tau P Omega \in unitmx ->
  (j < N)%N -> (forall c : nat, get (NdArray Sigma) j c = 0) ->
  allocate covariance market_weights views pick_list None risk_aversion tau
    prior_variance view_confidences asset_names self
  = (MkBL (weights self) (PyArray (NdArray pi)) (PyArray (NdArray (r Omega)))
       (PyArray (NdArray (S Omega))),
     Raise (LinAlgError "Singular matrix")).
Proof.
move=> sz_picks sz_names known Omega invertible j_lt zeros.
have checked :
    _error_checks views pick_list prior_variance view_confidences = Ok tt.
  by rewrite /_error_checks sz_picks eqxx.
have row0 : row (Ordinal j_lt) Sigma = 0.
  by apply/rowP => c; rewrite !mxE -(getE Sigma) zeros.
rewrite allocate_to_omega // prior_variance_omegaE mbind_pure.
rewrite reshape_same mbind_pure.
rewrite (@from_posterior_singular_posterior _ (Ordinal j_lt)) //.
exact: posterior_covariance_zero_row.
Qed.

(** X12. Another number of asset names than of market weights: the table
    of the pick matrix cannot be built, and the call ends in the
    [ValueError] of pandas with the implied equilibrium returns assigned
    and nothing else, whatever the pick specifications. *)
Theorem allocate_asset_names_count (omega : option (ndarray F))
    (omega_method : string) (self : BlackLitterman F) :
  _error_checks views pick_list omega_method view_confidences = Ok tt ->
  size names != N ->
  allocate covariance market_weights views pick_list omega risk_aversion tau
    omega_method view_confidences asset_names self
  = (implied self, Raise shape_error).
Proof.
move=> checked ne_sz.
by rewrite allocate_to_pick_matrix // create_pick_matrix_names.
Qed.

End AllocateRuns.

Section AllocateUserConfidences.

Variable F : realFieldType.

Variables (covariance : covariance_arg F) (market_weights : seq F).
Variable Sigma : 'M[F]_(size market_weights).
Hypothesis covariance_Sigma : covariance_values covariance = NdArray Sigma.

(** X18. The user-confidence mode in a whole call: with valid arguments
    and a number of views that is not the number of assets, the call ends
    in the [ValueError] of the reshape of the confidences, with the
    implied equilibrium returns assigned and nothing else. *)
Theorem allocate_user_confidences_views_assets (risk_aversion tau : F)
    (views confidences : seq F) (pick_list : seq (pick_dict F))
    (asset_names : option (seq string)) (self : BlackLitterman F) :
  let N := size market_weights in
  let names := names_used covariance asset_names N in
  _error_checks views pick_list user_confidences (Some confidences) = Ok tt ->
  size names = N -> all (known_assets names) pick_list ->
  size views != N ->
  allocate covariance market_weights views pick_list None risk_aversion tau
    user_confidences (Some confidences) asset_names self
  = (set_implied_equilibrium_returns
       (PyArray (NdArray (equilibrium_formula risk_aversion Sigma))) self,
     Raise (ValueError "cannot reshape array")).
Proof.
move=> N names checked sz_names known ne_KN.
have sz_conf : size confidences = size views.
  move: checked; rewrite /_error_checks; case: eqP => //= _.
  by case: eqP => // ->.
rewrite (allocate_to_omega covariance_Sigma) // idzorek_omega_reshape_fails //.
by rewrite sz_conf.
Qed.

End AllocateUserConfidences.

Section AllocateUnknownName.

Variable F : realFieldType.

Variables (covariance : covariance_arg F) (market_weights : seq F).
Variable Sigma : 'M[F]_(size market_weights).
Hypothesis covariance_Sigma : covariance_values covariance = NdArray Sigma.

(** The product [(tau Sigma) P^T] needs as many columns in [P] as there
    are assets. *)
Lemma prior_variance_omega_shapes (tau : F) (a : ndarray F)
    (view_confidences : option (seq F)) :
  ncols a != size market_weights ->
  _calculate_omega (NdArray Sigma) tau a view_confidences prior_variance
  = Raise (ValueError "shapes not aligned").
Proof.
move=> /negbTE mismatch; rewrite /_calculate_omega /= scaleE /dot /=.
by rewrite eq_sym mismatch.
Qed.

(** X19. One view whose pick specification uses a name that is no asset
    name, in the default mode with no omega given: the pick matrix gets a
    column more than there are assets, and the call ends in the
    [ValueError] of the first matrix product of [_calculate_omega], with
    the implied equilibrium returns assigned and nothing else. *)
Theorem allocate_unknown_asset_name (risk_aversion tau view : F)
    (d : pick_dict F) (view_confidences : option (seq F))
    (asset_names : option (seq string)) (self : BlackLitterman F) :
  let N := size market_weights in
  let names := names_used covariance asset_names N in
  size names = N -> ~~ known_assets names d ->
  allocate covariance market_weights [:: view] [:: d] None risk_aversion tau
    prior_variance view_confidences asset_names self
  = (set_implied_equilibrium_returns
       (PyArray (NdArray (equilibrium_formula risk_aversion Sigma))) self,
     Raise (ValueError "shapes not aligned")).
Proof.
move=> N names sz_names unknown.
have [a built [_ _ more _]] := create_pick_matrix_enlarged sz_names unknown.
rewrite (allocate_to_pick_matrix covariance_Sigma) //= -/N -/names built.
rewrite mbind_pure prior_variance_omega_shapes ?mbind_raise //.
by rewrite neq_ltn more orbT.
Qed.

End AllocateUnknownName.

Section AllocateShapes.

Variable F : realFieldType.

(** X11. A covariance whose number of columns is not the number of market
    weights: once validation has passed, the call ends in the
    [ValueError] of the first matrix product, and the instance is as it
    was. *)
Theorem allocate_covariance_weights_mismatch (covariance : covariance_arg F)
    (market_weights views : seq F) (pick_list : seq (pick_dict F))
    (omega : option (ndarray F)) (risk_aversion tau : F)
    (omega_method : string) (view_confidences : option (seq F))
    (asset_names : option (seq string)) (self : BlackLitterman F) :
  _error_checks views pick_list omega_method view_confidences = Ok tt ->
  ncols (covariance_values covariance) != size market_weights ->
  allocate covariance market_weights views pick_list omega risk_aversion tau
    omega_method view_confidences asset_names self
  = (self, Raise (ValueError "shapes not aligned")).
Proof.
move=> checked /negbTE mismatch; rewrite /allocate checked mbind_pure.
rewrite /_pre_process_inputs !reshape_list_col /= mbind_pure.
rewrite /_calculate_implied_equilibrium_returns /dot /=.
by move: mismatch; case: (covariance) => x /= ->.
Qed.

End AllocateShapes.

(** * The further properties at concrete inputs, over the rationals *)

Section MoreExamples.

Local Notation Q2 := (1%:M : 'M[rat]_2).
Local Notation ones := (const_mx 1 : 'cV[rat]_2).

(** Two assets, two views, covariance and pick matrix the identity. *)
Lemma omega_always_diagonal_witness :
  let omega := NdArray (diagonal_of (Q2 *m (1 *: Q2) *m Q2^T)) in
  nrows omega = ncols omega /\ forall i j : nat, i != j -> get omega i j = 0.
Proof.
exact: (@omega_always_diagonal rat (NdArray Q2) 1 (NdArray Q2) None
          prior_variance _ (prior_variance_omegaE Q2 1 Q2 None)).
Defined.

(** Confidences one half and one. *)
Lemma idzorek_omega_as_many_views_as_assets_witness :
  let confidences : seq rat := [:: 2%:R^-1; 1] in
  let Omega := idzorek_formula confidences Q2 Q2 in
  [/\ _calculate_omega (NdArray Q2) 1 (NdArray Q2) (Some confidences)
        user_confidences = Ok (NdArray Omega),
      forall i : 'I_2, 0 <= Omega i i
    & forall i : 'I_2, nth 0 confidences i = 1 -> Omega i i = 0].
Proof.
exact: (@idzorek_omega_as_many_views_as_assets rat 2 Q2 1 Q2
          [:: 2%:R^-1; 1] erefl isT identity_positive_semidefinite).
Defined.

Lemma certain_views_invertible : view_covariance Q2 1 Q2 0 \in unitmx.
Proof.
by rewrite /view_covariance scale1r mulmx1 trmx1 mulmx1 addr0 unitmx1.
Qed.

(** Implied returns zero, and the certain view that each asset earns 1. *)
Lemma posterior_returns_certain_views_witness :
  exists2 r : 'rV[rat]_2,
    _calculate_posterior_expected_returns
      (MkBL PyNone (PyArray (NdArray (0 : 'cV[rat]_2))) PyNone PyNone)
      (NdArray Q2) 1 (NdArray Q2) (NdArray (0 : 'M[rat]_2)) (NdArray ones)
    = Ok (NdArray r)
  & Q2 *m r^T = ones.
Proof.
exact: (@posterior_returns_certain_views rat 2 2 Q2 1 Q2
          (MkBL PyNone (PyArray (NdArray (0 : 'cV[rat]_2))) PyNone PyNone)
          0 ones erefl certain_views_invertible).
Defined.

(** Implied returns 1 for each asset, and views that say so. *)
Lemma posterior_returns_agreeing_views_witness :
  _calculate_posterior_expected_returns
    (MkBL PyNone (PyArray (NdArray ones)) PyNone PyNone)
    (NdArray Q2) 1 (NdArray Q2) (NdArray Q2) (NdArray (Q2 *m ones))
  = Ok (NdArray ones^T).
Proof.
exact: (@posterior_returns_agreeing_views rat 2 2 Q2 1 Q2
          (MkBL PyNone (PyArray (NdArray ones)) PyNone PyNone)
          ones Q2 erefl two_views_invertible).
Defined.

Lemma identity_symmetric : symmetric Q2.
Proof. by rewrite /symmetric trmx1. Qed.

Lemma posterior_covariance_symmetric_witness :
  exists2 S : 'M[rat]_2,
    _calculate_posterior_covariance (NdArray Q2) 1 (NdArray Q2) (NdArray Q2)
    = Ok (NdArray S)
  & symmetric S.
Proof.
exact: (@posterior_covariance_symmetric rat 2 2 Q2 1 Q2 Q2
          identity_symmetric identity_symmetric two_views_invertible).
Defined.

Lemma posterior_covariance_shrinks_witness :
  exists2 S : 'M[rat]_2,
    _calculate_posterior_covariance (NdArray Q2) 1 (NdArray Q2) (NdArray Q2)
    = Ok (NdArray S)
  & forall x : 'rV[rat]_2,
      (x *m S *m x^T) 0 0 <= (x *m (Q2 + 1 *: Q2) *m x^T) 0 0.
Proof.
exact: (@posterior_covariance_shrinks rat 2 2 Q2 1 Q2 Q2
          identity_symmetric identity_positive_semidefinite
          identity_symmetric identity_positive_semidefinite
          ler01 two_views_invertible).
Defined.



(** Posterior covariance the identity, posterior returns [(1, 1)], and
    either of them doubled. *)
Lemma max_sharpe_weights_scale_invariant_witness :
  let self : BlackLitterman rat :=
    MkBL PyNone PyNone (PyArray (NdArray (const_mx 1 : 'rV[rat]_2)))
      (PyArray (NdArray Q2)) in
  _calculate_max_sharpe_weights
    (set_posterior_expected_returns
       (PyArray (NdArray (2 *: (const_mx 1 : 'rV[rat]_2)))) self)
  = _calculate_max_sharpe_weights self
  /\ _calculate_max_sharpe_weights
       (set_posterior_covariance (PyArray (NdArray (2 *: Q2))) self)
     = _calculate_max_sharpe_weights self.
Proof.
exact: (@max_sharpe_weights_scale_invariant rat 2
          (MkBL PyNone PyNone (PyArray (NdArray (const_mx 1 : 'rV[rat]_2)))
             (PyArray (NdArray Q2)))
          Q2 (const_mx 1) 2 erefl erefl (unitmx1 _ _) raw_weights_sum isT).
Defined.

(** The four arrays of a call on two assets. *)
Lemma post_processing_tables_witness :
  let names := [:: "A"; "B"]%string in
  _post_processing names
    (MkBL (PyArray (NdArray ones)) (PyArray (NdArray ones))
       (PyArray (NdArray ones^T)) (PyArray (NdArray Q2)))
  = (labelled_results names ones ones ones^T Q2, Ok tt).
Proof.
exact: (@post_processing_tables rat 2 [:: "A"; "B"]%string
          (MkBL (PyArray (NdArray ones)) (PyArray (NdArray ones))
             (PyArray (NdArray ones^T)) (PyArray (NdArray Q2)))
          ones ones ones^T Q2 erefl erefl erefl erefl).
Defined.

(** A covariance of two assets and one market weight. *)
Lemma allocate_covariance_weights_mismatch_witness :
  allocate (CovArray (NdArray Q2)) [:: 1] [::] [::] None 2 1 prior_variance
    None None init
  = (init, Raise (ValueError "shapes not aligned")).
Proof.
exact: (@allocate_covariance_weights_mismatch rat (CovArray (NdArray Q2))
          [:: 1] [::] [::] None 2 1 prior_variance None None init erefl isT).
Defined.

(** Two assets and one asset name. *)
Lemma allocate_asset_names_count_witness :
  let w : seq rat := [:: 1; 1] in
  allocate (CovArray (NdArray Q2)) w [::] [::] None 2 1 prior_variance None
    (Some [:: "A"%string]) init
  = (set_implied_equilibrium_returns
       (PyArray (NdArray (equilibrium_formula 2 (Q2 : 'M_(size w))))) init,
     Raise shape_error).
Proof.
exact: (@allocate_asset_names_count rat (CovArray (NdArray Q2)) [:: 1; 1]
          1%:M erefl 2 1 None (Some [:: "A"%string]) [::] [::] None
          prior_variance init erefl isT).
Defined.

(** One view on two assets, and an omega of four entries. *)
Lemma allocate_given_omega_wrong_size_witness :
  let w : seq rat := [:: 1; 1] in
  allocate (CovArray (NdArray Q2)) w [:: 1] [:: [:: ("A"%string, 1)]]
    (Some (NdArray Q2)) 2 1 prior_variance None (Some [:: "A"; "B"]%string)
    init
  = (set_implied_equilibrium_returns
       (PyArray (NdArray (equilibrium_formula 2 (Q2 : 'M_(size w))))) init,
     Raise (ValueError "cannot reshape array")).
Proof.
exact: (@allocate_given_omega_wrong_size rat (CovArray (NdArray Q2))
          [:: 1; 1] 1%:M erefl 2 1 None (Some [:: "A"; "B"]%string) [:: 1]
          [:: [:: ("A"%string, 1)]] (NdArray Q2) prior_variance init erefl
          erefl isT isT).
Defined.

(** One view on two assets, which gives the first the coefficient 0. *)
Lemma allocate_view_picking_nothing_witness :
  let w : seq rat := [:: 1; 1] in
  allocate (CovArray (NdArray Q2)) w [:: 1] [:: [:: ("A"%string, 0)]] None
    2 1 prior_variance None (Some [:: "A"; "B"]%string) init
  = (set_implied_equilibrium_returns
       (PyArray (NdArray (equilibrium_formula 2 (Q2 : 'M_(size w))))) init,
     Raise (LinAlgError "Singular matrix")).
Proof.
exact: (@allocate_view_picking_nothing rat (CovArray (NdArray Q2))
          [:: 1; 1] 1%:M erefl 2 1 None (Some [:: "A"; "B"]%string) [:: 1]
          [:: [:: ("A"%string, 0)]] 0 init erefl erefl isT isT isT).
Defined.

(** Two assets, the second with no variance, no view, the default
    names. *)
Lemma second_asset_no_variance (c : nat) :
  get (NdArray (delta_mx ord0 ord0 : 'M[rat]_2)) 1 c = 0.
Proof.
case c_lt : (c < 2)%N; last by rewrite get_outside //= c_lt.
by rewrite (getE _ (Ordinal (isT : (1 < 2)%N)) (Ordinal c_lt)) !mxE.
Qed.

Lemma allocate_asset_without_variance_witness :
  let w : seq rat := [:: 1; 1] in
  let Sigma : 'M[rat]_(size w) := delta_mx ord0 ord0 in
  let P : 'M[rat]_(0, 2) := pick_matrix_of 0 2 [:: str 0; str 1] [::] in
  let Omega := diagonal_of (P *m (1 *: Sigma) *m P^T) in
  allocate (CovArray (NdArray Sigma)) w [::] [::] None 2 1 prior_variance
    None None init
  = (MkBL PyNone (PyArray (NdArray (equilibrium_formula 2 Sigma)))
       (PyArray (NdArray (posterior_returns_formula
                            (equilibrium_formula 2 Sigma) Sigma 1 P Omega
                            (column [::]))^T))
       (PyArray (NdArray (posterior_covariance_formula Sigma 1 P Omega))),
     Raise (LinAlgError "Singular matrix")).
Proof.
exact: (@allocate_asset_without_variance rat
          (CovArray (NdArray (delta_mx ord0 ord0))) [:: 1; 1]
          (delta_mx ord0 ord0) erefl 2 1 None None [::] [::] 1 init erefl
          erefl isT (unitmx0 _) isT second_asset_no_variance).
Defined.

(** One view with confidence one half on two assets. *)
Lemma allocate_user_confidences_views_assets_witness :
  let w : seq rat := [:: 1; 1] in
  allocate (CovArray (NdArray Q2)) w [:: 1] [:: [:: ("A"%string, 1)]] None
    2 1 user_confidences (Some [:: 2%:R^-1]) (Some [:: "A"; "B"]%string) init
  = (set_implied_equilibrium_returns
       (PyArray (NdArray (equilibrium_formula 2 (Q2 : 'M_(size w))))) init,
     Raise (ValueError "cannot reshape array")).
Proof.
exact: (@allocate_user_confidences_views_assets rat (CovArray (NdArray Q2))
          [:: 1; 1] 1%:M erefl 2 1 [:: 1] [:: 2%:R^-1]
          [:: [:: ("A"%string, 1)]] (Some [:: "A"; "B"]%string) init erefl
          erefl isT isT).
Defined.

(** One asset, and one view on a name that is not its name. *)
Lemma allocate_unknown_asset_name_witness :
  let w : seq rat := [:: 1] in
  allocate (CovArray (NdArray (1%:M : 'M[rat]_(size w)))) w [:: 0]
    [:: [:: ("X"%string, 1)]] None 2 1 prior_variance None
    (Some [:: "A"%string]) init
  = (set_implied_equilibrium_returns
       (PyArray (NdArray (equilibrium_formula 2 (1%:M : 'M[rat]_(size w)))))
       init,
     Raise (ValueError "shapes not aligned")).
Proof.
exact: (@allocate_unknown_asset_name rat
          (CovArray (NdArray (1%:M : 'M[rat]_1))) [:: 1] 1%:M erefl 2 1 0
          [:: ("X"%string, 1)] None (Some [:: "A"%string]) init erefl isT).
Defined.

End MoreExamples.

(** ** One asset and one view on it *)

Section OneAsset.

Local Notation w1 := ([:: 1] : seq rat).
Local Notation S1 := (1%:M : 'M[rat]_(size w1)).
Local Notation names1 := ([:: "A"%string] : seq string).
Local Notation picks1 := ([:: [:: ("A"%string, 1)]] : seq (pick_dict rat)).
Local Notation P1 := (pick_matrix_of 1 (size w1) names1 picks1).
Local Notation pi1 := (equilibrium_formula 2 S1).
Local Notation Q1 := (column ([:: 2] : seq rat)).
Local Notation Omega1 := (diagonal_of (P1 *m (1 *: S1) *m P1^T)).

Lemma one_pick : P1 = 1%:M.
Proof. by apply/matrixP => i j; rewrite !mxE !ord1. Qed.

Lemma one_weight : column w1 = 1%:M.
Proof. by apply/matrixP => i j; rewrite !mxE !ord1. Qed.

Lemma one_view : Q1 = 2%:M.
Proof. by apply/matrixP => i j; rewrite !mxE !ord1. Qed.

Lemma diagonal_of_scalar n (a : rat) : diagonal_of (a%:M : 'M_n) = a%:M.
Proof. by apply/matrixP => i j; rewrite !mxE; case: eqP. Qed.

Lemma one_view_omega : Omega1 = 1%:M.
Proof.
by rewrite one_pick scale1r !(mulmx1, trmx1) diagonal_of_scalar.
Qed.

Lemma one_view_covariance : view_covariance S1 1 P1 1%:M = 2%:M.
Proof.
by rewrite /view_covariance one_pick scale1r !(mulmx1, trmx1) -raddfD.
Qed.

Lemma one_view_invertible : view_covariance S1 1 P1 1%:M \in unitmx.
Proof. by rewrite one_view_covariance unitmxE det_scalar unitfE. Qed.

Lemma one_view_posterior_covariance :
  posterior_covariance_formula S1 1 P1 1%:M = (3%:R / 2%:R)%:M.
Proof.
rewrite /posterior_covariance_formula -/(view_covariance S1 1 P1 1%:M).
rewrite one_view_covariance one_pick scale1r !(mulmx1, trmx1, mul1mx).
by rewrite invmx_scalar -raddfD -raddfB /=; congr (_%:M).
Qed.

Lemma one_view_posterior_invertible :
  posterior_covariance_formula S1 1 P1 1%:M \in unitmx.
Proof.
by rewrite one_view_posterior_covariance unitmxE det_scalar unitfE.
Qed.

Lemma one_view_posterior_returns :
  posterior_returns_formula pi1 S1 1 P1 1%:M Q1 = 2%:M.
Proof.
rewrite /posterior_returns_formula -/(view_covariance S1 1 P1 1%:M).
rewrite one_view_covariance one_pick one_view scale1r.
rewrite /equilibrium_formula one_weight !(mulmx1, trmx1, mul1mx).
by rewrite scale_scalar_mx mulr1 subrr mulmx0 addr0.
Qed.

Lemma one_view_weights_sum :
  entries_sum
    (raw_weights (posterior_covariance_formula S1 1 P1 1%:M)
       (posterior_returns_formula pi1 S1 1 P1 1%:M Q1)^T) != 0.
Proof.
rewrite one_view_posterior_covariance one_view_posterior_returns.
rewrite /raw_weights trmxK invmx_scalar -scalar_mxM /entries_sum big_ord1.
by rewrite mxE.
Qed.

(** The asset is worth 1 on the market, its variance is 1, the investor
    expects 2 of it: the default mode. *)
Lemma allocate_prior_variance_succeeds_witness :
  let S := posterior_covariance_formula S1 1 P1 Omega1 in
  let r := (posterior_returns_formula pi1 S1 1 P1 Omega1 Q1)^T in
  allocate (CovArray (NdArray S1)) w1 [:: 2] picks1 None 2 1 prior_variance
    None (Some names1) init
  = (labelled_results names1 (normalised (raw_weights S r)) pi1 r S, Ok tt).
Proof.
apply: (@allocate_prior_variance_succeeds rat (CovArray (NdArray S1)) w1 S1
          erefl 2 1 None (Some names1) [:: 2] picks1 init erefl erefl isT).
- by rewrite one_view_omega; exact: one_view_invertible.
- by rewrite one_view_omega; exact: one_view_posterior_invertible.
- by rewrite one_view_omega; exact: one_view_weights_sum.
Defined.

(** The same call with the omega given, as one number. *)
Lemma allocate_given_omega_succeeds_witness :
  let Omega : 'M[rat]_1 := 1%:M in
  let S := posterior_covariance_formula S1 1 P1 Omega in
  let r := (posterior_returns_formula pi1 S1 1 P1 Omega Q1)^T in
  allocate (CovArray (NdArray S1)) w1 [:: 2] picks1 (Some (NdArray Omega))
    2 1 prior_variance None (Some names1) init
  = (labelled_results names1 (normalised (raw_weights S r)) pi1 r S, Ok tt).
Proof.
exact: (@allocate_given_omega_succeeds rat (CovArray (NdArray S1)) w1 S1
          erefl 2 1 None (Some names1) [:: 2] picks1 (NdArray 1%:M) 1%:M
          prior_variance init erefl erefl isT (reshape_same 1%:M)
          one_view_invertible one_view_posterior_invertible
          one_view_weights_sum).
Defined.

End OneAsset.
